(** * freedom-pulse: the estimate stabiliser, the refresh scheduler and the
    display animator of [src/App.jsx]

    JavaScript numbers are IEEE 754 binary64 values; they are modelled by
    Rocq's primitive [float], so that every product, sum and comparison
    below rounds exactly as the program's does.  Component state is a
    record, one refresh cycle is a function from the state and what the
    outside world answers (the clock, the HTTP reply, the store) to the
    next state and the list of effects performed. *)

From Stdlib Require Import ZArith Bool List String Ascii Floats DecimalString Lia.
Import ListNotations.

Set Warnings "-inexact-float,-abstract-large-number,-register-all".

(** ** The host language *)

Module JS.

(** Values, as [JSON.parse] and the store produce them. *)
Inductive value : Type :=
| JUndefined
| JNull
| JBool (b : bool)
| JNumber (x : float)
| JString (s : string)
| JArray (items : list value)
| JObject (fields : list (string * value)).

(** A thrown [Error]: only its [message] is ever read by the program. *)
Record exn : Type := { name : string; message : string }.

Definition Error (msg : string) : exn := {| name := "Error"; message := msg |}.

(** A completion: [inl e] is [throw e], [inr v] a normal result. *)
Definition result (A : Type) : Type := (exn + A)%type.

(** A [Date]: its time value in milliseconds, or an invalid date. *)
Inductive Date : Type :=
| InvalidDate
| DateMs (ms : Z).

(** What the engine and the platform supply and the repository does not
    define: the JSON parser ([JSON.parse], which first converts its argument
    to a string), the [TypeError]s raised by reading a property of
    [null]/[undefined] and by calling a missing method, and [new Date(v)]. *)
Record Host : Type := {
  JSON_parse : value -> result value;
  readOfNullish : value -> string -> exn;
  notAFunction : value -> string -> exn;
  newDate : value -> Date
}.

Definition typeof (v : value) : string :=
  match v with
  | JUndefined => "undefined"
  | JNull => "object"
  | JBool _ => "boolean"
  | JNumber _ => "number"
  | JString _ => "string"
  | JArray _ => "object"
  | JObject _ => "object"
  end.

(** ToBoolean. *)
Definition truthy (v : value) : bool :=
  match v with
  | JUndefined => false
  | JNull => false
  | JBool b => b
  | JNumber x => negb (PrimFloat.is_zero x || PrimFloat.is_nan x)
  | JString s => negb (String.eqb s "")
  | JArray _ => true
  | JObject _ => true
  end.

Definition isArray (v : value) : bool :=
  match v with
  | JArray _ => true
  | _ => false
  end.

Fixpoint assoc (k : string) (fields : list (string * value)) : value :=
  match fields with
  | [] => JUndefined
  | (k', v) :: rest => if String.eqb k k' then v else assoc k rest
  end.

(** [v[k]] for a [v] that is neither [null] nor [undefined].  The program
    reads the keys [candidates], [content], [parts], [text], [total],
    [trend], [headlines], [timestamp] and the index [0] only. *)
Definition get (v : value) (k : string) : value :=
  match v with
  | JObject fields => assoc k fields
  | JArray items => if String.eqb k "0" then nth 0 items JUndefined else JUndefined
  | JString s =>
      if String.eqb k "0" then
        match s with
        | String c _ => JString (String c EmptyString)
        | EmptyString => JUndefined
        end
      else JUndefined
  | _ => JUndefined
  end.

(** [v.k]: a [TypeError] on [null] and [undefined]. *)
Definition read (H : Host) (v : value) (k : string) : result value :=
  match v with
  | JUndefined => inl (readOfNullish H v k)
  | JNull => inl (readOfNullish H v k)
  | _ => inr (get v k)
  end.

(** [v?.k] and [v?.[k]]. *)
Definition optRead (v : value) (k : string) : value :=
  match v with
  | JUndefined => JUndefined
  | JNull => JUndefined
  | _ => get v k
  end.

(** *** Numbers *)

Definition number_of_Z (negative : bool) (n : Z) : float :=
  match n with
  | Z0 => if negative then neg_zero else zero
  | Zpos _ => of_uint63 (Uint63.of_Z n)
  | Zneg _ => (- of_uint63 (Uint63.of_Z (Z.opp n)))%float
  end.

(** [Math.round]: NaN, the infinities and the zeros are returned as they
    are, and so is every value that is already an integer; otherwise the
    result is [floor (x + 1/2)] computed exactly, with the sign of [x] when
    that is zero.  A finite non-zero [x] is [+-m * 2^e]; for [e < 0] it is
    below [2^52] in magnitude, so the integer is converted without loss. *)
Definition Math_round (x : float) : float :=
  match Prim2SF x with
  | S754_finite s m e =>
      if (0 <=? e)%Z then x
      else
        let v := if s then Zneg m else Zpos m in
        number_of_Z s (Z.shiftr (2 * v + Z.shiftl 1 (- e)) (1 - e))
  | _ => x
  end.

(** [Math.max] of two numbers: NaN if either is, and [+0] above [-0]. *)
Definition Math_max (a b : float) : float :=
  if PrimFloat.is_nan a || PrimFloat.is_nan b then nan
  else if (a <? b)%float then b
  else if (b <? a)%float then a
  else if PrimFloat.is_zero a && PrimFloat.get_sign a then b
  else a.

Definition Math_abs (x : float) : float := abs x.

(** The integer [n] as a number, for [0 <= n < 2^63]. *)
Definition of_Z (n : Z) : float := of_uint63 (Uint63.of_Z n).

(** [0 <= y] on the side of the IEEE 754 specification: a zero of either
    sign, [+infinity] or a positive finite number; never NaN. *)
Definition nonneg (y : spec_float) : bool := SFleb (S754_zero false) y.

(** *** Strings *)

Fixpoint isPrefix (p s : string) : bool :=
  match p, s with
  | EmptyString, _ => true
  | String a p', String b s' => Ascii.eqb a b && isPrefix p' s'
  | String _ _, EmptyString => false
  end.

(** [s.replace(/pat/g, '')] for a literal, non-empty [pat]: matches are
    taken from the left and do not overlap; [skip] counts the characters of
    the current match still to drop. *)
Fixpoint removeAll_from (pat : string) (skip : nat) (s : string) : string :=
  match s with
  | EmptyString => EmptyString
  | String c s' =>
      match skip with
      | S k => removeAll_from pat k s'
      | O =>
          if isPrefix pat s then removeAll_from pat (String.length pat - 1) s'
          else String c (removeAll_from pat 0 s')
      end
  end.

Definition removeAll (pat s : string) : string := removeAll_from pat 0 s.

(** White space of the ASCII range: tab, line feed, vertical tab, form feed,
    carriage return, space.  Strings are byte strings here, so the white
    space characters outside ASCII that [trim] also removes are not
    recognised. *)
Definition isWhiteSpace (c : ascii) : bool :=
  let n := nat_of_ascii c in
  ((9 <=? n) && (n <=? 13) || (n =? 32))%nat.

Fixpoint trimStart (s : string) : string :=
  match s with
  | EmptyString => EmptyString
  | String c s' => if isWhiteSpace c then trimStart s' else s
  end.

Fixpoint trimEnd (s : string) : string :=
  match s with
  | EmptyString => EmptyString
  | String c s' =>
      let r := trimEnd s' in
      if isWhiteSpace c && String.eqb r "" then EmptyString else String c r
  end.

Definition trim (s : string) : string := trimEnd (trimStart s).

(** A template literal's rendering of a non-negative integer. *)
Definition decimal (n : nat) : string := NilEmpty.string_of_uint (Nat.to_uint n).

End JS.

(** ** The application *)

Module App.
Import JS.

(** *** The estimate source adapter: [callGemini] *)

(** What [fetch] answers: a rejection (no connection), or a response with
    its [ok] flag, status code and body text. *)
Record Response : Type := { ok : bool; status : nat; body : string }.

Inductive FetchResult : Type :=
| Rejected (e : exn)
| Responded (response : Response).

(** *** Component state ([useState] cells of [App]) *)

Record State : Type := {
  totalActive : float;
  displayNumber : float;
  trend : value;
  headlines : value;
  lastUpdated : option Date;
  apiStatus : string;
  errorDetails : string;
  user : option string
}.

Definition setTotalActive (v : float) (st : State) : State :=
  {| totalActive := v; displayNumber := displayNumber st; trend := trend st;
     headlines := headlines st; lastUpdated := lastUpdated st;
     apiStatus := apiStatus st; errorDetails := errorDetails st; user := user st |}.

Definition setDisplayNumber (v : float) (st : State) : State :=
  {| totalActive := totalActive st; displayNumber := v; trend := trend st;
     headlines := headlines st; lastUpdated := lastUpdated st;
     apiStatus := apiStatus st; errorDetails := errorDetails st; user := user st |}.

Definition setTrend (v : value) (st : State) : State :=
  {| totalActive := totalActive st; displayNumber := displayNumber st; trend := v;
     headlines := headlines st; lastUpdated := lastUpdated st;
     apiStatus := apiStatus st; errorDetails := errorDetails st; user := user st |}.

Definition setHeadlines (v : value) (st : State) : State :=
  {| totalActive := totalActive st; displayNumber := displayNumber st; trend := trend st;
     headlines := v; lastUpdated := lastUpdated st;
     apiStatus := apiStatus st; errorDetails := errorDetails st; user := user st |}.

Definition setLastUpdated (v : option Date) (st : State) : State :=
  {| totalActive := totalActive st; displayNumber := displayNumber st; trend := trend st;
     headlines := headlines st; lastUpdated := v;
     apiStatus := apiStatus st; errorDetails := errorDetails st; user := user st |}.

Definition setApiStatus (v : string) (st : State) : State :=
  {| totalActive := totalActive st; displayNumber := displayNumber st; trend := trend st;
     headlines := headlines st; lastUpdated := lastUpdated st;
     apiStatus := v; errorDetails := errorDetails st; user := user st |}.

Definition setErrorDetails (v : string) (st : State) : State :=
  {| totalActive := totalActive st; displayNumber := displayNumber st; trend := trend st;
     headlines := headlines st; lastUpdated := lastUpdated st;
     apiStatus := apiStatus st; errorDetails := v; user := user st |}.

(** The initial values given to [useState]. *)
Definition initial : State :=
  {| totalActive := 0%float; displayNumber := 0%float; trend := JString "stable";
     headlines := JArray [JString "در حال همگام‌سازی..."];
     lastUpdated := None; apiStatus := "idle"; errorDetails := ""; user := None |}.

(** The document written to the store by [setDoc]. *)
Record Snapshot : Type := {
  total : float;
  snapTrend : value;
  snapHeadlines : value;
  timestamp : Z;
  updatedBy : string
}.

(** What one refresh cycle does to the outside world, in order. *)
Inductive effect : Type :=
| Fetch
| SetDoc (d : Snapshot)
| ConsoleError (label : string).

(** What the outside world answers during one run of [checkAndRunUpdate]:
    the clock at entry, whether the store is configured ([db]), the reply
    to [fetch], the rejection of [setDoc] if any, and the clock when the
    result is stamped. *)
Record Env : Type := {
  now : Z;
  db : bool;
  reply : FetchResult;
  writeFailure : option exn;
  stampTime : Z
}.

(** The result of one run: the state left behind, the effects performed and
    the exception the returned promise is rejected with, if any. *)
Record Outcome : Type := {
  next : State;
  effects : list effect;
  rejected : option exn
}.

(** *** The stabiliser (the block under [// Heavy Stabilization]) *)

Definition stabilize (totalActive incomingTotal : float) : float :=
  let stabilizedTotal := incomingTotal in
  if (0 <? totalActive)%float then
    if (incomingTotal <? totalActive)%float then
      Math_max incomingTotal (Math_round (totalActive * 0.95))
    else
      Math_round (totalActive * 0.9 + incomingTotal * 0.1)
  else if (0 <? incomingTotal)%float then incomingTotal
  else stabilizedTotal.

(** [typeof v === 'number' && !isNaN(v) ? v : 0] *)
Definition validNumber (v : value) : float :=
  match v with
  | JNumber x => if PrimFloat.is_nan x then 0%float else x
  | _ => 0%float
  end.

(** [typeof data.total === 'number' ? data.total : 0] *)
Definition incomingTotalOf (v : value) : float :=
  match v with
  | JNumber x => x
  | _ => 0%float
  end.

(** *** The display animator (the updater passed to [setDisplayNumber]) *)

Definition animate (totalActive prev : value) : float :=
  let target := validNumber totalActive in
  let current := validNumber prev in
  let diff := (target - current)%float in
  if (Math_abs diff <? 1)%float then target
  else (current + diff * 0.05)%float.

(** The test under which another animation frame is requested. *)
Definition keepRunning (totalActive displayNumber : float) : bool :=
  (0.5 <? Math_abs (totalActive - displayNumber))%float.

(** One frame applied to the component state. *)
Definition frame (st : State) : State :=
  setDisplayNumber (animate (JNumber (totalActive st)) (JNumber (displayNumber st))) st.

(** [n] updater steps towards a fixed target. *)
Fixpoint frames (n : nat) (target current : float) : float :=
  match n with
  | O => current
  | S k => frames k target (animate (JNumber target) (JNumber current))
  end.

(** *** The refresh scheduler *)

Definition stalenessThreshold : Z := 60 * 1000.

(** [!lastUpdated || (now - lastUpdated > stalenessThreshold)]: a [Date]
    object is truthy, a subtraction with an invalid date is NaN and compares
    false. *)
Definition needsUpdate (now : Z) (lastUpdated : option Date) : bool :=
  match lastUpdated with
  | None => true
  | Some InvalidDate => false
  | Some (DateMs t) => (stalenessThreshold <? now - t)%Z
  end.

Definition isSome {A : Type} (o : option A) : bool :=
  match o with
  | Some _ => true
  | None => false
  end.

Section WithHost.

Variable H : Host.

(** [callGemini(prompt, systemInstruction, useSearch)].  The prompt and the
    system instruction only go into the request; the reply is what the
    outside world answers, so the result depends on [useSearch] and on that
    reply.  A thrown error is logged and thrown again. *)
Definition callGemini (useSearch : bool) (net : FetchResult) : result value :=
  match net with
  | Rejected e => inl e
  | Responded response =>
      if negb (ok response) then
        let errorText := body response in
        inl (Error ("HTTP " ++ decimal (status response) ++ ": " ++ errorText))
      else
        match JSON_parse H (JString (body response)) with
        | inl e => inl e
        | inr data =>
            match read H data "candidates" with
            | inl e => inl e
            | inr candidates =>
                let found :=
                  optRead (optRead (optRead (optRead (optRead candidates "0")
                    "content") "parts") "0") "text" in
                let text := if truthy found then found else JString "{}" in
                if useSearch then
                  match text with
                  | JString s =>
                      inr (JString (trim (removeAll "```" (removeAll "```json" s))))
                  | v => inl (notAFunction H v "replace")
                  end
                else inr text
            end
        end
  end.

(** The local-mode branch after stabilisation. *)
Definition acceptLocally (data : value) (stabilizedTotal : float) (stamp : Z)
    (st : State) : State :=
  let st := setTotalActive stabilizedTotal st in
  let st := if truthy (get data "trend") then setTrend (get data "trend") st else st in
  let st := if truthy (get data "headlines") then setHeadlines (get data "headlines") st else st in
  let st := setLastUpdated (Some (DateMs stamp)) st in
  setApiStatus "success" st.

(** The body of the [try] of [checkAndRunUpdate], entered after the status
    was set to loading: the effects performed, and either the exception
    handed to [catch] or the state at the end (also at the early [return]
    of the parse failure). *)
Definition tryRefresh (env : Env) (isLocalMode : bool) (st : State)
    : list effect * result State :=
  match callGemini true (reply env) with
  | inl e => ([Fetch; ConsoleError "Gemini API Error:"], inl e)
  | inr jsonStr =>
      match JSON_parse H jsonStr with
      | inl _ => ([Fetch; ConsoleError "JSON Parse failed"], inr st)
      | inr data =>
          match read H data "total" with
          | inl e => ([Fetch], inl e)
          | inr dataTotal =>
              let incomingTotal := incomingTotalOf dataTotal in
              let stabilizedTotal := stabilize (totalActive st) incomingTotal in
              if isLocalMode then
                ([Fetch], inr (acceptLocally data stabilizedTotal (stampTime env) st))
              else
                match user st with
                | None => ([Fetch], inl (readOfNullish H JNull "uid"))
                | Some uid =>
                    let d := {| total := stabilizedTotal;
                                snapTrend := get data "trend";
                                snapHeadlines := get data "headlines";
                                timestamp := stampTime env;
                                updatedBy := uid |} in
                    match writeFailure env with
                    | Some e => ([Fetch; SetDoc d], inl e)
                    | None => ([Fetch; SetDoc d], inr st)
                    end
                end
          end
      end
  end.

Definition checkAndRunUpdate (env : Env) (st : State) : Outcome :=
  let needsUpdate := needsUpdate (now env) (lastUpdated st) in
  let isLocalMode := negb (db env) in
  if needsUpdate || isLocalMode then
    if negb isLocalMode && negb (isSome (user st)) then
      {| next := st; effects := []; rejected := None |}
    else
      let st := setApiStatus "loading" st in
      match tryRefresh env isLocalMode st with
      | (done, inr st') => {| next := st'; effects := done; rejected := None |}
      | (done, inl e) =>
          {| next := setErrorDetails (message e) (setApiStatus "error" st);
             effects := done ++ [ConsoleError "Update Sequence Failed:"];
             rejected := None |}
      end
  else {| next := st; effects := []; rejected := None |}.

(** The interval timer: one run per tick, each on the state the previous one
    left; a run whose promise is rejected does not stop the timer. *)
Fixpoint runTicks (ticks : list Env) (st : State) : State * list effect :=
  match ticks with
  | [] => (st, [])
  | env :: rest =>
      let o := checkAndRunUpdate env st in
      let (st', later) := runTicks rest (next o) in
      (st', effects o ++ later)
  end.

(** The store subscription callback: [data] is [docSnap.data()] when the
    document exists. *)
Definition onSnapshot (docSnap : option value) (st : State) : State :=
  match docSnap with
  | Some data =>
      let validTotal := validNumber (get data "total") in
      let st := setTotalActive validTotal st in
      let st := setTrend (if truthy (get data "trend") then get data "trend"
                          else JString "stable") st in
      let st := if truthy (get data "headlines") && isArray (get data "headlines")
                then setHeadlines (get data "headlines") st else st in
      let st := if truthy (get data "timestamp")
                then setLastUpdated (Some (newDate H (get data "timestamp"))) st else st in
      setApiStatus "success" st
  | None => setLastUpdated (Some (DateMs 0)) st
  end.

End WithHost.

(** How many calls to the estimate source a list of effects contains. *)
Definition fetches (done : list effect) : nat :=
  List.length (List.filter (fun e => match e with Fetch => true | _ => false end) done).

(** The totals a list of effects writes to the store. *)
Fixpoint persisted (done : list effect) : list float :=
  match done with
  | [] => []
  | SetDoc d :: rest => total d :: persisted rest
  | _ :: rest => persisted rest
  end.

End App.

(** ** Derived notions used in the statements *)

Module Spec.
Import JS App.

(** A run of [checkAndRunUpdate] gets as far as calling the estimate source:
    the update branch is entered and the identity gate of shared mode is
    passed. *)
Definition attemptsRefresh (env : Env) (st : State) : bool :=
  (needsUpdate (now env) (lastUpdated st) || negb (db env))
  && (negb (db env) || isSome (user st)).

(** The payload the refresh cycle parses out of the reply, if it gets one. *)
Definition parsedPayload (H : Host) (env : Env) : option value :=
  match callGemini H true (reply env) with
  | inr jsonStr =>
      match JSON_parse H jsonStr with
      | inr data => Some data
      | inl _ => None
      end
  | inl _ => None
  end.

(** A [total] field that is either not a number at all or a number that is
    not below zero (so not NaN either). *)
Definition acceptableTotal (v : value) : bool :=
  match v with
  | JNumber x => (0 <=? x)%float
  | _ => true
  end.

(** A value that is not an infinite number: anything that is not a
    number, NaN, or a finite number. *)
Definition notInfinite (v : value) : bool :=
  match v with
  | JNumber x => negb (PrimFloat.is_infinity x)
  | _ => true
  end.

(** On the side of the IEEE 754 specification: a zero or a finite number. *)
Definition finite (y : spec_float) : bool :=
  match y with
  | S754_zero _ => true
  | S754_finite _ _ _ => true
  | _ => false
  end.

(** [f] holds on [count] consecutive integers from [start]. *)
Fixpoint allFrom (count : nat) (start : Z) (f : Z -> bool) : bool :=
  match count with
  | O => true
  | S k => f start && allFrom k (Z.succ start) f
  end.

(** Equal inputs give the same output, for the integer [n]. *)
Definition stableAt (n : Z) : bool :=
  PrimFloat.Leibniz.eqb (stabilize (of_Z n) (of_Z n)) (of_Z n).

(** [v] lies between [a] and [b], whichever is larger. *)
Definition between (a b v : float) : bool :=
  ((a <=? v) && (v <=? b) || (b <=? v) && (v <=? a))%float.

(** The next [n] steps from [cur] towards 1000 each go strictly up and do
    not pass 1000. *)
Fixpoint climbs (n : nat) (cur : float) : bool :=
  match n with
  | O => true
  | S m =>
      (cur <? animate (JNumber 1000) (JNumber cur))%float
      && (animate (JNumber 1000) (JNumber cur) <=? 1000)%float
      && climbs m (animate (JNumber 1000) (JNumber cur))
  end.

(** [n] steps from [cur] towards [target] end on [target] exactly, and
    [cur] and every value after it are non-negative and between [start] and
    [target]. *)
Fixpoint settles (n : nat) (target start cur : float) : bool :=
  (0 <=? cur)%float && between target start cur
  && match n with
     | O => PrimFloat.Leibniz.eqb cur target
     | S m => settles m target start (animate (JNumber target) (JNumber cur))
     end.

(** Whenever the target becomes 500 during the next [n] steps from [cur]
    towards 1000, 123 further steps settle on 500. *)
Fixpoint retargets (n : nat) (cur : float) : bool :=
  settles 123 500 cur cur
  && match n with
     | O => true
     | S m => retargets m (animate (JNumber 1000) (JNumber cur))
     end.

End Spec.

(** ** Concrete hosts, replies and states for the examples *)

Module Demo.
Import JS App.
Local Open Scope string_scope.

Definition quote : string := String (ascii_of_nat 34) EmptyString.

Definition backslash : string := String (ascii_of_nat 92) EmptyString.

(** The JSON text of an object with the single field [total]. *)
Definition payloadText (total : string) : string :=
  "{" ++ quote ++ "total" ++ quote ++ ":" ++ total ++ "}".

(** A string's content inside a JSON string literal. *)
Fixpoint escape (s : string) : string :=
  match s with
  | EmptyString => EmptyString
  | String c s' =>
      if Ascii.eqb c (ascii_of_nat 34) then backslash ++ String c (escape s')
      else String c (escape s')
  end.

(** The body of a successful reply of the estimate source whose text part is
    [text], and the value it parses to. *)
Definition envelopeText (text : string) : string :=
  "{" ++ quote ++ "candidates" ++ quote ++ ":[{" ++ quote ++ "content" ++ quote
  ++ ":{" ++ quote ++ "parts" ++ quote ++ ":[{" ++ quote ++ "text" ++ quote ++ ":"
  ++ quote ++ escape text ++ quote ++ "}]}}]}".

Definition envelopeValue (text : string) : value :=
  JObject [("candidates",
    JArray [JObject [("content",
      JObject [("parts", JArray [JObject [("text", JString text)]])])]])].

Fixpoint lookup (s : string) (table : list (string * value)) : result value :=
  match table with
  | [] => inl {| name := "SyntaxError"; message := "Unexpected token" |}
  | (s', v) :: rest => if String.eqb s s' then inr v else lookup s rest
  end.

(** A host whose JSON parser knows the texts of [table] and rejects every
    other text. *)
Definition tableHost (table : list (string * value)) : Host :=
  {| JSON_parse := fun v =>
       match v with
       | JString s => lookup s table
       | _ => inl {| name := "SyntaxError"; message := "Unexpected token" |}
       end;
     readOfNullish := fun _ k =>
       {| name := "TypeError"; message := "Cannot read properties of null: " ++ k |};
     notAFunction := fun _ k =>
       {| name := "TypeError"; message := k ++ " is not a function" |};
     newDate := fun _ => InvalidDate |}.

(** The host that parses the reply carrying [text], and [text] itself to
    [payload] when there is one. *)
Definition hostFor (text : string) (payload : option value) : Host :=
  tableHost ((envelopeText text, envelopeValue text)
             :: match payload with
                | Some v => [(text, v)]
                | None => []
                end).

Definition replyWith (text : string) : FetchResult :=
  Responded {| ok := true; status := 200; body := envelopeText text |}.

(** One tick at time [t], in local mode ([db] unset) or shared mode. *)
Definition tick (t : Z) (shared : bool) (r : FetchResult) : Env :=
  {| now := t; db := shared; reply := r; writeFailure := None; stampTime := t + 1 |}.

(** A signed-in client that saw a snapshot of total 1000 at time 0. *)
Definition synced : State :=
  {| totalActive := 1000%float; displayNumber := 1000%float; trend := JString "up";
     headlines := JArray [JString "A"]; lastUpdated := Some (DateMs 0);
     apiStatus := "success"; errorDetails := ""; user := Some "uid-1" |}.

Definition unavailable : FetchResult :=
  Responded {| ok := false; status := 503; body := "overloaded" |}.

End Demo.

(** ** The rest of the component: start-up, ticker and visuals *)

Module Rest.
Import JS App.
Local Open Scope string_scope.

(** *** More of the host language *)

(** [Math.min] of two numbers: NaN if either is, and [-0] below [+0]. *)
Definition Math_min (a b : float) : float :=
  if PrimFloat.is_nan a || PrimFloat.is_nan b then nan
  else if (a <? b)%float then a
  else if (b <? a)%float then b
  else if PrimFloat.is_zero a && PrimFloat.get_sign a then a
  else b.

(** The remainder [n % d]: NaN when an operand is NaN, [n] is infinite or
    [d] is a zero; [n] when [d] is infinite or [n] is a zero; otherwise
    [n - d * q] for [q] the quotient truncated towards zero, which is exact,
    with the sign of [n] also when it is zero.  Both operands are brought to
    the common exponent [e] before the integer remainder is taken. *)
Definition Number_remainder (n d : float) : float :=
  match Prim2SF n, Prim2SF d with
  | S754_nan, _ => nan
  | _, S754_nan => nan
  | S754_infinity _, _ => nan
  | _, S754_infinity _ => n
  | _, S754_zero _ => nan
  | S754_zero _, _ => n
  | S754_finite sn mn en, S754_finite _ md ed =>
      let e := Z.min en ed in
      let r := Z.rem (Z.shiftl (Zpos mn) (en - e)) (Z.shiftl (Zpos md) (ed - e)) in
      SF2Prim (binary_normalize prec emax (if sn then Z.opp r else r) e sn)
  end.

(** What the engine supplies to the code below: [Math.log10], the decimal
    rendering of a number in a template literal, and [v.length] converted to
    a number for a [v] that is not an array. *)
Record Engine : Type := {
  Math_log10 : float -> float;
  numberToString : float -> string;
  lengthOfOther : value -> float
}.

(** The number [idx] as an array index: its value when it is a non-negative
    integer (either zero counts as 0), nothing otherwise.  A number with a
    non-negative exponent is at least [2^52], beyond the length of any
    array. *)
Definition toIndex (idx : float) : option nat :=
  match Prim2SF idx with
  | S754_zero _ => Some 0%nat
  | S754_finite false m e =>
      if (0 <=? e)%Z then None
      else if Z.eqb (Z.land (Zpos m) (Z.ones (- e))) 0
           then Some (Z.to_nat (Z.shiftr (Zpos m) (- e)))
           else None
  | _ => None
  end.

(** [items[idx]] for an array. *)
Definition element (items : list value) (idx : float) : value :=
  match toIndex idx with
  | Some i => nth i items JUndefined
  | None => JUndefined
  end.

(** [pat] occurs somewhere in [s]. *)
Fixpoint occurs (pat s : string) : bool :=
  isPrefix pat s
  || match s with
     | EmptyString => false
     | String _ s' => occurs pat s'
     end.

(** The code-fence markup the adapter strips. *)
Definition fence : string := "```".

Definition startsWithWhiteSpace (s : string) : bool :=
  match s with
  | EmptyString => false
  | String c _ => isWhiteSpace c
  end.

Fixpoint endsWithWhiteSpace (s : string) : bool :=
  match s with
  | EmptyString => false
  | String c EmptyString => isWhiteSpace c
  | String _ s' => endsWithWhiteSpace s'
  end.

Definition isNullish (v : value) : bool :=
  match v with
  | JUndefined => true
  | JNull => true
  | _ => false
  end.

(** [data.candidates?.[0]?.content?.parts?.[0]?.text], as [callGemini]
    reads it from the parsed body. *)
Definition candidateText (data : value) : value :=
  optRead (optRead (optRead (optRead (optRead (get data "candidates") "0")
    "content") "parts") "0") "text".

(** *** Start-up: [getEnvVar] and the store configuration *)

(** What the module finds when it is loaded: the object [import.meta.env]
    if there is one, the global [__firebase_config] if it is defined, and
    whether the Firebase initialisation throws. *)
Record Boot : Type := {
  importMetaEnv : option (list (string * value));
  globalFirebaseConfig : option value;
  initThrows : bool
}.

(** [getEnvVar(key)]: [import.meta.env[key] || ""], and [""] without
    [import.meta.env]. *)
Definition getEnvVar (boot : Boot) (key : string) : value :=
  match importMetaEnv boot with
  | Some env => if truthy (assoc key env) then assoc key env else JString ""
  | None => JString ""
  end.

(** The value left in [firebaseConfig] by the first [try] of the module, and
    what it logs: [null] unless a configuration text was found and parsed. *)
Definition firebaseConfig (H : Host) (boot : Boot) : value * list effect :=
  let envConfig := getEnvVar boot "VITE_FIREBASE_CONFIG" in
  if truthy envConfig then
    match JSON_parse H envConfig with
    | inr config => (config, [])
    | inl _ => (JNull, [ConsoleError "Firebase Config Parsing Error:"])
    end
  else
    match globalFirebaseConfig boot with
    | Some text =>
        match JSON_parse H text with
        | inr config => (config, [])
        | inl _ => (JNull, [ConsoleError "Firebase Config Parsing Error:"])
        end
    | None => (JNull, [])
    end.

(** Whether [db] is set once the module is loaded. *)
Definition dbConfigured (H : Host) (boot : Boot) : bool :=
  truthy (fst (firebaseConfig H boot)) && negb (initThrows boot).

(** *** The headline ticker *)

(** [headlines.length] as a number. *)
Definition lengthOf (E : Engine) (headlines : value) : float :=
  match headlines with
  | JArray items => of_Z (Z.of_nat (List.length items))
  | v => lengthOfOther E v
  end.

(** The updater of the ticker: [prev => (prev + 1) % headlines.length]. *)
Definition nextHeadline (E : Engine) (headlines : value) (prev : float) : float :=
  Number_remainder (prev + 1)%float (lengthOf E headlines).

(** [k] firings of the ticker on unchanged headlines. *)
Fixpoint ticker (E : Engine) (k : nat) (headlines : value) (index : float) : float :=
  match k with
  | O => index
  | S k' => ticker E k' headlines (nextHeadline E headlines index)
  end.

(** *** Visuals *)

Definition getPulseSpeed (E : Engine) (totalActive : float) : string :=
  if (totalActive <=? 0)%float then "4s"
  else
    let baseSpeed := 2.5%float in
    let maxPeople := 100000%float in
    let speed := Math_max 0.3 (baseSpeed - ((totalActive / maxPeople) * 2))%float in
    numberToString E speed ++ "s".

Definition targetPop : float := 3100000%float.

Definition displayProbability (E : Engine) (totalActive : float) : float :=
  if (0 <? totalActive)%float then
    Math_min (Math_round
                ((Math_log10 E totalActive / Math_log10 E targetPop) * 100 * 0.6)%float)
             99
  else 0%float.

(** *** Checks used in the statements *)

(** From the index [i] the ticker moves to [(i + 1) mod n] for an array of
    [n] headlines, and [i] is read as the array index [i]. *)
Definition wrapsAt (n i : Z) : bool :=
  PrimFloat.Leibniz.eqb (Number_remainder (of_Z i + 1)%float (of_Z n))
                        (of_Z ((i + 1) mod n))
  && match toIndex (of_Z i) with
     | Some j => Nat.eqb j (Z.to_nat i)
     | None => false
     end.

(** [wrapsAt n i] for every [i] from 0 below [n]. *)
Definition wraps (n : Z) : bool := Spec.allFrom (Z.to_nat n) 0 (wrapsAt n).

End Rest.

(** ** Concrete engines, start-ups and replies for further examples *)

Module RestDemo.
Import JS App Demo Rest.
Local Open Scope string_scope.

Fixpoint logOf (x : float) (table : list (float * float)) : float :=
  match table with
  | [] => nan
  | (y, l) :: rest => if PrimFloat.Leibniz.eqb x y then l else logOf x rest
  end.

Fixpoint renderingOf (x : float) (table : list (float * string)) : string :=
  match table with
  | [] => ""
  | (y, t) :: rest => if PrimFloat.Leibniz.eqb x y then t else renderingOf x rest
  end.

(** An engine that knows the logarithms and the renderings listed, and the
    length of strings. *)
Definition tableEngine (logs : list (float * float))
    (renderings : list (float * string)) : Engine :=
  {| Math_log10 := fun x => logOf x logs;
     numberToString := fun x => renderingOf x renderings;
     lengthOfOther := fun v =>
       match v with
       | JString t => of_Z (Z.of_nat (String.length t))
       | _ => nan
       end |}.

Definition engine : Engine :=
  tableEngine [(1000%float, 3%float); (3100000%float, 6.491361693834273%float)]
              [(1.5%float, "1.5"); (0.3%float, "0.3")].

(** A host whose parser reads the text of the empty object only. *)
Definition emptyObjectHost : Host := tableHost [("{}", JObject [])].

(** A successful response whose body is the empty object. *)
Definition emptyReply : FetchResult :=
  Responded {| ok := true; status := 200; body := "{}" |}.

(** A text wrapped in a code fence, as the estimate source may send it. *)
Definition fencedText : string := "```json {} ``` ".

(** A tick of shared mode at time 61000 on which the store rejects the
    write. *)
Definition rejectedWrite : Env :=
  {| now := 61000; db := true; reply := replyWith (payloadText "1200");
     writeFailure := Some (Error "permission-denied"); stampTime := 61001 |}.

Definition payload1200 : value := JObject [("total", JNumber 1200)].

(** The document of a snapshot with two headlines and no trend. *)
Definition storedDocument : value :=
  JObject [("total", JNumber 1020);
           ("headlines", JArray [JString "A"; JString "B"]);
           ("timestamp", JNumber 61001)].

(** Start-ups: nothing configured; a text in the environment that the host
    of [Demo] does not parse, beside a global. *)
Definition bareBoot : Boot :=
  {| importMetaEnv := Some []; globalFirebaseConfig := None; initThrows := false |}.

Definition brokenEnvBoot : Boot :=
  {| importMetaEnv := Some [("VITE_FIREBASE_CONFIG", JString "{oops")];
     globalFirebaseConfig := Some (JString "{}"); initThrows := false |}.

Definition globalBoot : Boot :=
  {| importMetaEnv := None; globalFirebaseConfig := Some (JString "cfg");
     initThrows := false |}.

End RestDemo.

(** ** Facts about binary64 arithmetic *)

Module FloatFacts.
Import JS Spec.

Lemma nonneg_cases (y : spec_float) :
  nonneg y = true ->
  (exists s, y = S754_zero s) \/ y = S754_infinity false \/
  (exists m e, y = S754_finite false m e).
Proof.
  destruct y as [s|s| |s m e]; unfold nonneg; cbn.
  - intros _; left; now exists s.
  - destruct s; [discriminate|]. intros _; right; now left.
  - discriminate.
  - destruct s; [discriminate|]. intros _; right; right; now exists m, e.
Qed.

Lemma leb_zero_nonneg (x : float) :
  (0 <=? x)%float = nonneg (Prim2SF x).
Proof. now rewrite leb_spec. Qed.

(** *** Rounding to the format never yields NaN *)

Lemma shr_1_nonneg (r : shr_record) :
  (0 <= shr_m r)%Z -> (0 <= shr_m (shr_1 r))%Z.
Proof.
  destruct r as [m r s]; destruct m as [|[p|p|]|[p|p|]]; cbn; lia.
Qed.

Lemma iter_shr_1_nonneg (p : positive) :
  forall r, (0 <= shr_m r)%Z -> (0 <= shr_m (iter_pos shr_1 p r))%Z.
Proof.
  induction p as [p IH|p IH|]; intros r Hr; cbn.
  - apply IH, IH, shr_1_nonneg, Hr.
  - apply IH, IH, Hr.
  - apply shr_1_nonneg, Hr.
Qed.

Lemma shr_fexp_nonneg (m e : Z) (l : location) :
  (0 <= m)%Z -> (0 <= shr_m (fst (shr_fexp prec emax m e l)))%Z.
Proof.
  intros Hm. unfold shr_fexp, shr.
  assert (H0 : (0 <= shr_m (shr_record_of_loc m l))%Z)
    by (destruct l as [|[]]; exact Hm).
  destruct (fexp prec emax (Zdigits2 m + e) - e)%Z; cbn [fst]; trivial.
  now apply iter_shr_1_nonneg.
Qed.

Lemma round_nearest_even_nonneg (m : Z) (l : location) :
  (0 <= m)%Z -> (0 <= round_nearest_even m l)%Z.
Proof.
  intros Hm. destruct l as [|[]]; cbn; try destruct (Z.even m); lia.
Qed.

Lemma binary_round_aux_cases (sx : bool) (m e : Z) (l : location) :
  (0 <= m)%Z ->
  binary_round_aux prec emax sx m e l = S754_zero sx
  \/ binary_round_aux prec emax sx m e l = S754_infinity sx
  \/ exists m' e', binary_round_aux prec emax sx m e l = S754_finite sx m' e'.
Proof.
  intros Hm. unfold binary_round_aux.
  pose proof (shr_fexp_nonneg m e l Hm) as H1.
  destruct (shr_fexp prec emax m e l) as [mrs' e'] eqn:E1. cbn [fst] in H1.
  pose proof (shr_fexp_nonneg _ e' loc_Exact
                (round_nearest_even_nonneg _ (loc_of_shr_record mrs') H1)) as H2.
  destruct (shr_fexp prec emax _ e' loc_Exact) as [mrs'' e''] eqn:E2.
  cbn [fst] in H2.
  destruct (shr_m mrs'') as [|q|q]; [now left| |lia].
  destruct (e'' <=? emax - prec)%Z; [right; right; now exists q, e''|right; now left].
Qed.

Lemma binary_round_aux_nonneg (m e : Z) (l : location) :
  (0 <= m)%Z -> nonneg (binary_round_aux prec emax false m e l) = true.
Proof.
  intros Hm.
  destruct (binary_round_aux_cases false m e l Hm) as [->|[->|(m' & e' & ->)]];
    reflexivity.
Qed.

Lemma binary_round_aux_not_nan (sx : bool) (m e : Z) (l : location) :
  (0 <= m)%Z -> binary_round_aux prec emax sx m e l <> S754_nan.
Proof.
  intros Hm.
  destruct (binary_round_aux_cases sx m e l Hm) as [->|[->|(m' & e' & ->)]];
    discriminate.
Qed.

Lemma binary_normalize_not_nan (m e : Z) (sz : bool) :
  binary_normalize prec emax m e sz <> S754_nan.
Proof.
  destruct m as [|q|q]; cbn; [discriminate| |]; unfold binary_round;
    destruct (shl_align q e _) as [mz ez]; now apply binary_round_aux_not_nan.
Qed.

Lemma binary_round_nonneg (m : positive) (e : Z) :
  nonneg (binary_round prec emax false m e) = true.
Proof.
  unfold binary_round.
  destruct (shl_align m e _) as [mz ez].
  now apply binary_round_aux_nonneg.
Qed.

Lemma binary_normalize_nonneg (m e : Z) :
  (0 <= m)%Z -> nonneg (binary_normalize prec emax m e false) = true.
Proof.
  intros Hm. destruct m as [|q|q]; cbn; [reflexivity| |lia].
  apply binary_round_nonneg.
Qed.

(** *** Comparison *)

Lemma SFcompare_refl (y : spec_float) :
  y <> S754_nan -> SFcompare y y = Some Eq.
Proof.
  destruct y as [s|s| |s m e]; cbn; intros Hy; try easy.
  - now destruct s.
  - destruct s; rewrite Z.compare_refl, Pos.compare_cont_refl; reflexivity.
Qed.

Lemma SFcompare_antisym (a b : spec_float) (c : comparison) :
  SFcompare a b = Some c -> SFcompare b a = Some (CompOpp c).
Proof.
  destruct a as [s1|s1| |s1 m1 e1], b as [s2|s2| |s2 m2 e2]; cbn;
    try discriminate;
    try (intros [= <-]; try destruct s1; try destruct s2; reflexivity).
  intros [= <-]. f_equal.
  pose proof (Pos.compare_cont_antisym m1 m2 Eq) as Hm. cbn in Hm.
  destruct s1, s2; try reflexivity;
    rewrite (Z.compare_antisym e1 e2);
    destruct (e1 ?= e2)%Z; cbn; try reflexivity;
    rewrite <- Hm; now destruct (Pos.compare_cont Eq m1 m2).
Qed.

Lemma nonneg_not_nan (y : spec_float) : nonneg y = true -> y <> S754_nan.
Proof. intros Hy ->. discriminate Hy. Qed.

Lemma ltb_irrefl (x : float) : (x <? x)%float = false.
Proof.
  rewrite ltb_spec. unfold SFltb.
  destruct (Prim2SF x) as [s|s| |s m e] eqn:E; try reflexivity;
    rewrite SFcompare_refl; easy.
Qed.

Lemma leb_refl (x : float) : PrimFloat.is_nan x = false -> (x <=? x)%float = true.
Proof.
  unfold PrimFloat.is_nan. rewrite eqb_spec, leb_spec. unfold SFeqb, SFleb.
  now destruct (SFcompare (Prim2SF x) (Prim2SF x)) as [[]|].
Qed.

Lemma ltb_leb (x y : float) : (x <? y)%float = true -> (x <=? y)%float = true.
Proof.
  rewrite ltb_spec, leb_spec. unfold SFltb, SFleb.
  now destruct (SFcompare (Prim2SF x) (Prim2SF y)) as [[]|].
Qed.

Lemma leb_not_ltb (x y : float) : (x <=? y)%float = true -> (y <? x)%float = false.
Proof.
  rewrite ltb_spec, leb_spec. unfold SFltb, SFleb.
  destruct (SFcompare (Prim2SF x) (Prim2SF y)) as [c|] eqn:E; [|discriminate].
  rewrite (SFcompare_antisym _ _ _ E). now destruct c.
Qed.

Lemma leb_total (x y : float) :
  PrimFloat.is_nan x = false -> PrimFloat.is_nan y = false ->
  (x <? y)%float = false -> (y <=? x)%float = true.
Proof.
  unfold PrimFloat.is_nan. rewrite !eqb_spec, ltb_spec, leb_spec.
  unfold SFeqb, SFltb, SFleb. intros Hx Hy.
  destruct (SFcompare (Prim2SF x) (Prim2SF y)) as [c|] eqn:E.
  - rewrite (SFcompare_antisym _ _ _ E). now destruct c.
  - destruct (Prim2SF x) as [s|s| |s m e], (Prim2SF y) as [s'|s'| |s' m' e'];
      cbn in *; discriminate.
Qed.

Lemma nonneg_is_nan (x : float) : (0 <=? x)%float = true -> PrimFloat.is_nan x = false.
Proof.
  rewrite leb_zero_nonneg. intros Hx.
  unfold PrimFloat.is_nan. rewrite eqb_spec. unfold SFeqb.
  rewrite SFcompare_refl; [reflexivity|now apply nonneg_not_nan].
Qed.

(** *** The operations of the stabiliser keep a number non-negative *)

Lemma mul_nonneg (x c : float) (m : positive) (e : Z) :
  Prim2SF c = S754_finite false m e ->
  (0 <=? x)%float = true -> (0 <=? x * c)%float = true.
Proof.
  rewrite !leb_zero_nonneg, mul_spec. intros -> Hx.
  destruct (nonneg_cases _ Hx) as [[s ->]|[->|(mx & ex & ->)]]; cbn.
  - reflexivity.
  - reflexivity.
  - now apply binary_round_aux_nonneg.
Qed.

Lemma add_nonneg (x y : float) :
  (0 <=? x)%float = true -> (0 <=? y)%float = true -> (0 <=? x + y)%float = true.
Proof.
  rewrite !leb_zero_nonneg, add_spec. intros Hx Hy.
  destruct (nonneg_cases _ Hx) as [[s ->]|[->|(mx & ex & ->)]];
    destruct (nonneg_cases _ Hy) as [[s' ->]|[->|(my & ey & ->)]];
    try reflexivity; try (now destruct s, s'); try (now destruct s).
  unfold SF64add, SFadd. apply binary_normalize_nonneg. cbn. lia.
Qed.

Lemma of_uint63_nonneg (n : PrimInt63.int) : (0 <=? of_uint63 n)%float = true.
Proof.
  rewrite leb_zero_nonneg, of_uint63_spec.
  apply binary_normalize_nonneg. apply Uint63.to_Z_bounded.
Qed.

Lemma Math_round_nonneg (x : float) :
  (0 <=? x)%float = true -> (0 <=? Math_round x)%float = true.
Proof.
  intros Hx. unfold Math_round.
  pose proof Hx as Hx'. rewrite leb_zero_nonneg in Hx'.
  destruct (nonneg_cases _ Hx') as [[s E]|[E|(m & e & E)]]; rewrite E; trivial.
  destruct (0 <=? e)%Z; trivial.
  assert (Hn : (0 <= Z.shiftr (2 * Z.pos m + Z.shiftl 1 (- e)) (1 - e))%Z).
  { apply Z.shiftr_nonneg.
    assert (0 <= Z.shiftl 1 (- e))%Z by (apply Z.shiftl_nonneg; lia). lia. }
  destruct (Z.shiftr _ _) as [|q|q]; cbn [number_of_Z]; [reflexivity| |lia].
  apply of_uint63_nonneg.
Qed.

Lemma Math_max_nonneg (a b : float) :
  (0 <=? a)%float = true -> (0 <=? b)%float = true ->
  (0 <=? Math_max a b)%float = true.
Proof.
  intros Ha Hb. unfold Math_max.
  rewrite (nonneg_is_nan _ Ha), (nonneg_is_nan _ Hb). cbn [orb].
  destruct (a <? b)%float; trivial.
  destruct (b <? a)%float; trivial.
  now destruct (PrimFloat.is_zero a && PrimFloat.get_sign a).
Qed.

Lemma Math_max_ge_right (a b : float) :
  PrimFloat.is_nan a = false -> PrimFloat.is_nan b = false ->
  (b <=? Math_max a b)%float = true.
Proof.
  intros Ha Hb. unfold Math_max. rewrite Ha, Hb. cbn [orb].
  destruct (a <? b)%float eqn:Hab; [now apply leb_refl|].
  destruct (b <? a)%float eqn:Hba; [now apply ltb_leb|].
  destruct (PrimFloat.is_zero a && PrimFloat.get_sign a);
    [now apply leb_refl|now apply leb_total].
Qed.

(** *** No NaN from finite operands *)

Lemma is_nan_spec (x : float) :
  PrimFloat.is_nan x = false <-> Prim2SF x <> S754_nan.
Proof.
  unfold PrimFloat.is_nan. rewrite eqb_spec. unfold SFeqb. split.
  - intros Hx E. rewrite E in Hx. discriminate Hx.
  - intros Hx. now rewrite SFcompare_refl.
Qed.

Lemma finite_not_nan (y : spec_float) : finite y = true -> y <> S754_nan.
Proof. intros Hy ->. discriminate Hy. Qed.

Lemma finite_spec (x : float) :
  PrimFloat.is_nan x = false -> PrimFloat.is_infinity x = false ->
  finite (Prim2SF x) = true.
Proof.
  unfold PrimFloat.is_nan, PrimFloat.is_infinity.
  rewrite !eqb_spec, abs_spec.
  destruct (Prim2SF x) as [s|s| |s m e]; cbn; try reflexivity; discriminate.
Qed.

Lemma sub_finite (x y : float) :
  finite (Prim2SF x) = true -> finite (Prim2SF y) = true ->
  Prim2SF (x - y)%float <> S754_nan.
Proof.
  rewrite sub_spec.
  destruct (Prim2SF x) as [s|s| |s m e], (Prim2SF y) as [s'|s'| |s' m' e'];
    try discriminate; intros _ _; cbn -[binary_normalize];
    try (destruct s, s'; discriminate); try discriminate.
  apply binary_normalize_not_nan.
Qed.

Lemma mul_not_nan (d c : float) (m : positive) (e : Z) :
  Prim2SF c = S754_finite false m e ->
  Prim2SF d <> S754_nan -> Prim2SF (d * c)%float <> S754_nan.
Proof.
  rewrite mul_spec. intros -> Hd.
  destruct (Prim2SF d) as [s|s| |s md ed]; cbn; try discriminate; [easy|].
  apply binary_round_aux_not_nan. lia.
Qed.

Lemma add_finite (c y : float) :
  finite (Prim2SF c) = true -> Prim2SF y <> S754_nan ->
  Prim2SF (c + y)%float <> S754_nan.
Proof.
  rewrite add_spec.
  destruct (Prim2SF c) as [s|s| |s m e], (Prim2SF y) as [s'|s'| |s' m' e'];
    try discriminate; intros _ Hy; cbn -[binary_normalize];
    try (destruct s, s'; discriminate); try discriminate; try easy.
  apply binary_normalize_not_nan.
Qed.

Lemma pos_nonneg (x : float) : (0 <? x)%float = true -> (0 <=? x)%float = true.
Proof. apply ltb_leb. Qed.

End FloatFacts.

(** ** The stabiliser *)

Section Stabiliser.
Import JS App Spec FloatFacts.
Local Open Scope float_scope.

Lemma stabilize_nonneg (p x : float) :
  (0 <=? x) = true -> (0 <=? stabilize p x) = true.
Proof.
  intros Hx. unfold stabilize.
  destruct (0 <? p) eqn:Hp.
  - apply pos_nonneg in Hp.
    destruct (x <? p).
    + apply Math_max_nonneg; trivial.
      apply Math_round_nonneg. eapply mul_nonneg; [reflexivity|exact Hp].
    + apply Math_round_nonneg, add_nonneg;
        (eapply mul_nonneg; [reflexivity|assumption]).
  - now destruct (0 <? x).
Qed.

Lemma allFrom_sound (f : Z -> bool) (count : nat) :
  forall start n,
    allFrom count start f = true ->
    (start <= n < start + Z.of_nat count)%Z -> f n = true.
Proof.
  induction count as [|k IH]; intros start n Hall Hn; [lia|].
  cbn [allFrom] in Hall. apply andb_prop in Hall as [Hhere Hrest].
  destruct (Z.eq_dec n start) as [->|Hne]; trivial.
  apply (IH (Z.succ start)); trivial. lia.
Qed.

Lemma stable_up_to_100000 : allFrom 100001 0 stableAt = true.
Proof. vm_compute. reflexivity. Qed.

(** C1. For a previous total [p > 0] and an incoming total [x] with
    [0 <= x < p], the stabiliser returns [max(x, round(p * 0.95))], and that
    result is not below [round(p * 0.95)]; in particular
    [stabilize(1000, 800) = 950]. *)
Theorem drop_protection :
  (forall p x : float,
      (0 <? p) = true -> (0 <=? x) = true -> (x <? p) = true ->
      stabilize p x = Math_max x (Math_round (p * 0.95))
      /\ (Math_round (p * 0.95) <=? stabilize p x) = true
      /\ (stabilize p x <? Math_round (p * 0.95)) = false)
  /\ stabilize 1000 800 = 950.
Proof.
  split; [|reflexivity].
  intros p x Hp Hx Hlt. unfold stabilize. rewrite Hp, Hlt.
  assert (Hge : (Math_round (p * 0.95) <=? Math_max x (Math_round (p * 0.95))) = true).
  { apply Math_max_ge_right.
    - now apply nonneg_is_nan.
    - apply nonneg_is_nan, Math_round_nonneg.
      eapply mul_nonneg; [reflexivity|now apply pos_nonneg]. }
  repeat split; trivial. now apply leb_not_ltb.
Qed.

Lemma drop_protection_witness :
  ((0 <? 1000) = true /\ (0 <=? 800) = true /\ (800 <? 1000) = true)
  /\ stabilize 1000 800 = Math_max 800 (Math_round (1000 * 0.95))
  /\ (Math_round (1000 * 0.95) <=? stabilize 1000 800) = true
  /\ (stabilize 1000 800 <? Math_round (1000 * 0.95)) = false.
Proof.
  split; [repeat split|].
  apply (proj1 drop_protection 1000 800); reflexivity.
Defined.

(** C2, as the specification states it, fails: on equal inputs the result
    is not always the input.  For [p = 6000000000000005] the products
    [p * 0.9] and [p * 0.1] are [5400000000000005] and [600000000000000.5],
    their sum is a tie that rounds to the even [6000000000000006]. *)
Lemma equal_inputs_counterexample :
  (0 <? 6000000000000005) = true
  /\ stabilize 6000000000000005 6000000000000005 = 6000000000000006
  /\ (stabilize 6000000000000005 6000000000000005 =? 6000000000000005) = false
  /\ ~ (forall p : float, (0 <? p) = true -> stabilize p p = p).
Proof.
  repeat split.
  intros Hall. specialize (Hall 6000000000000005 eq_refl).
  apply (f_equal Prim2SF) in Hall. vm_compute in Hall. discriminate Hall.
Qed.

(** C2, amended.  For [p > 0] and [x >= p] the stabiliser returns
    [round(p * 0.9 + x * 0.1)]; [stabilize(1000, 1200) = 1020],
    [stabilize(1000, 1000) = 1000], and [stabilize(n, n) = n] for every
    integer [n] from 0 to 100000. *)
Theorem rise_smoothing :
  (forall p x : float,
      (0 <? p) = true -> (p <=? x) = true ->
      stabilize p x = Math_round (p * 0.9 + x * 0.1))
  /\ stabilize 1000 1200 = 1020
  /\ stabilize 1000 1000 = 1000
  /\ (forall n : Z, (0 <= n <= 100000)%Z -> stabilize (of_Z n) (of_Z n) = of_Z n).
Proof.
  split; [|split; [reflexivity|split; [reflexivity|]]].
  - intros p x Hp Hle. unfold stabilize.
    now rewrite Hp, (leb_not_ltb _ _ Hle).
  - intros n Hn. apply FloatAxioms.Leibniz.eqb_spec.
    apply (allFrom_sound stableAt 100001 0 n stable_up_to_100000).
    replace (Z.of_nat 100001) with 100001%Z by (vm_compute; reflexivity). lia.
Qed.

Lemma rise_smoothing_witness :
  ((0 <? 1000) = true /\ (1000 <=? 1200) = true
   /\ stabilize 1000 1200 = Math_round (1000 * 0.9 + 1200 * 0.1))
  /\ ((0 <= 5000 <= 100000)%Z /\ stabilize (of_Z 5000) (of_Z 5000) = of_Z 5000).
Proof.
  split.
  - split; [reflexivity|split; [reflexivity|]].
    apply (proj1 rise_smoothing 1000 1200); reflexivity.
  - split; [lia|].
    apply (proj2 (proj2 (proj2 rise_smoothing)) 5000%Z). lia.
Defined.

(** C3. With no previous total the incoming total is accepted as it is:
    [stabilize(0, X) = X] for every [X], of either sign of the zero. *)
Theorem bootstrap_accepts_raw :
  forall X : float, stabilize 0 X = X /\ stabilize (-0) X = X.
Proof.
  intros X. unfold stabilize.
  change (0 <? 0) with false. change (0 <? -0) with false.
  now destruct (0 <? X).
Qed.

End Stabiliser.

(** ** The refresh scheduler *)

Section Scheduler.
Import JS App Spec.
Local Open Scope string_scope.

Variable H : Host.

(** Case analysis on the innermost scrutinee first. *)
Ltac break_match :=
  match goal with
  | |- context [match ?x with _ => _ end] =>
      lazymatch x with
      | context [match _ with _ => _ end] => fail
      | _ => destruct x eqn:?
      end
  end.

Lemma run_skipped (env : Env) (st : State) :
  attemptsRefresh env st = false ->
  checkAndRunUpdate H env st = {| next := st; effects := []; rejected := None |}.
Proof.
  unfold attemptsRefresh, checkAndRunUpdate.
  destruct (needsUpdate (now env) (lastUpdated st)), (db env), (user st);
    cbn; intros Hno; try discriminate Hno; reflexivity.
Qed.

Lemma run_attempted (env : Env) (st : State) :
  attemptsRefresh env st = true ->
  checkAndRunUpdate H env st =
    match tryRefresh H env (negb (db env)) (setApiStatus "loading" st) with
    | (done, inr st') => {| next := st'; effects := done; rejected := None |}
    | (done, inl e) =>
        {| next := setErrorDetails (message e)
                     (setApiStatus "error" (setApiStatus "loading" st));
           effects := done ++ [ConsoleError "Update Sequence Failed:"];
           rejected := None |}
    end.
Proof.
  unfold attemptsRefresh, checkAndRunUpdate.
  destruct (needsUpdate (now env) (lastUpdated st)), (db env), (user st);
    cbn; intros Hyes; try discriminate Hyes; reflexivity.
Qed.

Lemma attempted_fetches_once (env : Env) (st : State) :
  attemptsRefresh env st = true ->
  fetches (effects (checkAndRunUpdate H env st)) = 1%nat.
Proof.
  intros Hyes. rewrite (run_attempted env st Hyes). unfold tryRefresh.
  repeat (break_match; try reflexivity).
Qed.

Lemma never_rejected (env : Env) (st : State) :
  rejected (checkAndRunUpdate H env st) = None.
Proof.
  unfold checkAndRunUpdate, tryRefresh. repeat (break_match; try reflexivity).
Qed.

(** C10. In local mode every tick calls the estimate source, whatever the age
    of the last snapshot: the call is made exactly when the update is needed
    or the mode is local, and (in shared mode) an identity is established;
    in shared mode a tick on a fresh snapshot does nothing. *)
Theorem local_mode_always_refreshes :
  forall (env : Env) (st : State),
    let o := checkAndRunUpdate H env st in
    fetches (effects o)
      = (if (needsUpdate (now env) (lastUpdated st) || negb (db env))
            && (negb (db env) || isSome (user st)) then 1 else 0)%nat
    /\ (db env = false -> fetches (effects o) = 1%nat)
    /\ (db env = true -> needsUpdate (now env) (lastUpdated st) = false ->
        effects o = [] /\ next o = st).
Proof.
  intros env st o. subst o. split; [|split].
  - fold (attemptsRefresh env st).
    destruct (attemptsRefresh env st) eqn:Ha.
    + now apply attempted_fetches_once.
    + now rewrite (run_skipped env st Ha).
  - intros Hlocal. apply attempted_fetches_once.
    unfold attemptsRefresh. rewrite Hlocal. cbn.
    now rewrite orb_true_r.
  - intros Hdb Hfresh. rewrite run_skipped; [now split|].
    unfold attemptsRefresh. now rewrite Hdb, Hfresh.
Qed.

(** C4, amended.  In shared mode, for a client with an established identity
    and a staleness threshold of 60 seconds: a tick 30 seconds after the last
    snapshot's timestamp calls nothing and leaves the state as it is, a tick
    61 seconds after it calls the estimate source exactly once; and with no
    prior snapshot an update is always needed. *)
Theorem staleness_gate_shared_mode :
  (forall (env : Env) (st : State) (t : Z) (uid : string),
      db env = true -> user st = Some uid -> lastUpdated st = Some (DateMs t) ->
      (now env = (t + 30 * 1000)%Z ->
       fetches (effects (checkAndRunUpdate H env st)) = 0%nat
       /\ effects (checkAndRunUpdate H env st) = []
       /\ next (checkAndRunUpdate H env st) = st)
      /\ (now env = (t + 61 * 1000)%Z ->
          fetches (effects (checkAndRunUpdate H env st)) = 1%nat))
  /\ stalenessThreshold = (60 * 1000)%Z
  /\ (forall now : Z, needsUpdate now None = true).
Proof.
  split; [|split; reflexivity].
  intros env st t uid Hdb Huser Hlast. split; intros Hnow.
  - rewrite run_skipped; [now repeat split|].
    unfold attemptsRefresh, needsUpdate, stalenessThreshold.
    rewrite Hdb, Hlast, Hnow. cbn [negb orb].
    replace (60 * 1000 <? t + 30 * 1000 - t)%Z with false; [reflexivity|].
    symmetry. apply Z.ltb_ge. lia.
  - apply attempted_fetches_once.
    unfold attemptsRefresh, needsUpdate, stalenessThreshold.
    rewrite Hdb, Hlast, Hnow, Huser. cbn [negb orb isSome andb].
    replace (60 * 1000 <? t + 61 * 1000 - t)%Z with true; [reflexivity|].
    symmetry. apply Z.ltb_lt. lia.
Qed.

Lemma parse_failure_outcome (env : Env) (st : State) (jsonStr : value) (e : exn) :
  attemptsRefresh env st = true ->
  callGemini H true (reply env) = inr jsonStr ->
  JSON_parse H jsonStr = inl e ->
  checkAndRunUpdate H env st =
    {| next := setApiStatus "loading" st;
       effects := [Fetch; ConsoleError "JSON Parse failed"];
       rejected := None |}.
Proof.
  intros Hyes Hcall Hparse. rewrite (run_attempted env st Hyes).
  unfold tryRefresh. now rewrite Hcall, Hparse.
Qed.

(** C5, amended.  When the text returned by the estimate source does not
    parse, the refresh cycle ends with the state it had when the source was
    called: the status is loading, as set just before the call (it is flipped
    neither to error nor to success), and the accepted total, the displayed
    value, the trend, the headlines, the time of the last update and the
    error details are those from before the cycle.  The failure is logged and
    the promise is not rejected. *)
Theorem parse_failure_keeps_state :
  forall (env : Env) (st : State) (jsonStr : value) (e : exn),
    attemptsRefresh env st = true ->
    callGemini H true (reply env) = inr jsonStr ->
    JSON_parse H jsonStr = inl e ->
    let o := checkAndRunUpdate H env st in
    next o = setApiStatus "loading" st
    /\ apiStatus (next o) = "loading"
    /\ totalActive (next o) = totalActive st
    /\ displayNumber (next o) = displayNumber st
    /\ trend (next o) = trend st
    /\ headlines (next o) = headlines st
    /\ lastUpdated (next o) = lastUpdated st
    /\ errorDetails (next o) = errorDetails st
    /\ effects o = [Fetch; ConsoleError "JSON Parse failed"]
    /\ rejected o = None.
Proof.
  intros env st jsonStr e Hyes Hcall Hparse o. subst o.
  rewrite (parse_failure_outcome env st jsonStr e Hyes Hcall Hparse).
  repeat split.
Qed.

Lemma append_assoc (a b c : string) : (a ++ b) ++ c = a ++ (b ++ c).
Proof. induction a as [|x a IH]; cbn; [reflexivity|now rewrite IH]. Qed.

(** C6. A response that is not [ok] makes [callGemini] throw an error whose
    message ends with the response body; the refresh cycle then sets the
    status to error, records that message, leaves the accepted total as it
    was, and its promise is not rejected: the timer runs the next ticks on
    the state it left. *)
Theorem http_failure_is_reported :
  forall (env : Env) (st : State) (r : Response),
    reply env = Responded r -> ok r = false -> attemptsRefresh env st = true ->
    let o := checkAndRunUpdate H env st in
    let msg := "HTTP " ++ decimal (status r) ++ ": " ++ body r in
    callGemini H true (reply env) = inl (Error msg)
    /\ (exists before : string, msg = before ++ body r)
    /\ apiStatus (next o) = "error"
    /\ errorDetails (next o) = msg
    /\ totalActive (next o) = totalActive st
    /\ rejected o = None
    /\ (forall ticks : list Env,
          runTicks H (env :: ticks) st
          = (fst (runTicks H ticks (next o)),
             (effects o ++ snd (runTicks H ticks (next o)))%list)).
Proof.
  intros env st r Hreply Hok Hyes o msg.
  assert (Hcall : callGemini H true (reply env) = inl (Error msg)).
  { rewrite Hreply. unfold callGemini. now rewrite Hok. }
  assert (Ho : o = {| next := setErrorDetails msg
                               (setApiStatus "error" (setApiStatus "loading" st));
                      effects := [Fetch; ConsoleError "Gemini API Error:";
                                  ConsoleError "Update Sequence Failed:"];
                      rejected := None |}).
  { subst o. rewrite (run_attempted env st Hyes). unfold tryRefresh.
    now rewrite Hcall. }
  split; [exact Hcall|]. split.
  { exists ("HTTP " ++ decimal (status r) ++ ": "). subst msg.
    now rewrite !append_assoc. }
  rewrite Ho. repeat split.
  intros ticks. cbn [runTicks]. fold o. rewrite Ho. cbn [next effects].
  now destruct (runTicks H ticks _).
Qed.

Lemma acceptLocally_total (data : value) (total : float) (stamp : Z) (st : State) :
  totalActive (acceptLocally data total stamp st) = total.
Proof.
  unfold acceptLocally.
  destruct (truthy (get data "trend")), (truthy (get data "headlines")); reflexivity.
Qed.

Lemma read_get (v : value) (k : string) (w : value) :
  read H v k = inr w -> w = get v k.
Proof. destruct v; cbn; intros [= <-]; reflexivity. Qed.

Lemma incomingTotalOf_nonneg (v : value) :
  acceptableTotal v = true -> (0 <=? incomingTotalOf v)%float = true.
Proof. destruct v; cbn; trivial. Qed.

Lemma validNumber_not_nan (v : value) : PrimFloat.is_nan (validNumber v) = false.
Proof.
  destruct v; try reflexivity. cbn.
  destruct (PrimFloat.is_nan x) eqn:Hx; [reflexivity|exact Hx].
Qed.

(** The part of C7 that holds for every previous total.  Whenever the
    payload's [total] field is not a number below zero or NaN, the total a
    refresh cycle accepts is at or above zero, hence not NaN: that holds for
    the total it writes into the local state (which otherwise keeps the
    previous total) and for the total it sends to the store.  A [total] that
    is not a number is replaced by 0 where it is read, and the store
    subscription replaces a [total] that is not a number or is NaN by 0. *)
Theorem accepted_total_nonneg :
  (forall (env : Env) (st : State),
      (forall data : value,
          parsedPayload H env = Some data ->
          acceptableTotal (get data "total") = true) ->
      let o := checkAndRunUpdate H env st in
      (totalActive (next o) = totalActive st
       \/ (0 <=? totalActive (next o))%float = true)
      /\ ((0 <=? totalActive st)%float = true ->
          (0 <=? totalActive (next o))%float = true)
      /\ Forall (fun t : float => (0 <=? t)%float = true) (persisted (effects o)))
  /\ (forall v : value, typeof v <> "number" -> incomingTotalOf v = 0%float)
  /\ (forall (data : value) (st : State),
        totalActive (onSnapshot H (Some data) st) = validNumber (get data "total")
        /\ PrimFloat.is_nan (totalActive (onSnapshot H (Some data) st)) = false)
  /\ (forall v : value,
        typeof v <> "number" \/ (exists x, v = JNumber x /\ PrimFloat.is_nan x = true) ->
        validNumber v = 0%float).
Proof.
  split; [|split; [|split]].
  - intros env st Hpay o.
    assert (Hmain : (totalActive (next o) = totalActive st
                     \/ (0 <=? totalActive (next o))%float = true)
                    /\ Forall (fun t : float => (0 <=? t)%float = true)
                              (persisted (effects o))).
    { subst o.
      destruct (attemptsRefresh env st) eqn:Ha;
        [|rewrite (run_skipped env st Ha); split; [now left|constructor]].
      rewrite (run_attempted env st Ha).
      unfold parsedPayload in Hpay. unfold tryRefresh.
      cbn [user totalActive setApiStatus].
      destruct (callGemini H true (reply env)) as [e|jsonStr];
        [split; [now left|constructor]|].
      destruct (JSON_parse H jsonStr) as [e|data];
        [split; [now left|constructor]|].
      specialize (Hpay data eq_refl).
      destruct (read H data "total") as [e|dataTotal] eqn:Hread;
        [split; [now left|constructor]|].
      apply read_get in Hread. subst dataTotal.
      pose proof (stabilize_nonneg (totalActive st) _
                    (incomingTotalOf_nonneg _ Hpay)) as Hnew.
      destruct (negb (db env)).
      - cbn [next effects persisted]. rewrite acceptLocally_total.
        split; [now right|constructor].
      - destruct (user st) as [uid|]; [|split; [now left|constructor]].
        destruct (writeFailure env); cbn [next effects persisted app total];
          (split; [now left|now repeat constructor]). }
    destruct Hmain as [[Hsame|Hnew] Hsent]; (split; [|split]); auto.
    intros Hst. now rewrite Hsame.
  - intros v Hv. destruct v; try reflexivity. now elim Hv.
  - intros data st. assert (Ht : totalActive (onSnapshot H (Some data) st)
                                 = validNumber (get data "total")).
    { unfold onSnapshot.
      destruct (truthy (get data "headlines") && isArray (get data "headlines")),
        (truthy (get data "timestamp")); reflexivity. }
    split; [exact Ht|]. rewrite Ht. apply validNumber_not_nan.
  - intros v [Hv|(x & -> & Hx)].
    + destruct v; try reflexivity. now elim Hv.
    + cbn. now rewrite Hx.
Qed.

End Scheduler.

(** *** The scheduler on concrete ticks *)

Section SchedulerExamples.
Import JS App Spec Demo.
Local Open Scope string_scope.

Lemma local_mode_always_refreshes_witness :
  (db (tick 30000 false (replyWith "{}")) = false
   /\ fetches (effects (checkAndRunUpdate (hostFor "{}" (Some (JObject [])))
                          (tick 30000 false (replyWith "{}")) synced)) = 1%nat)
  /\ (db (tick 30000 true (replyWith "{}")) = true
      /\ needsUpdate (now (tick 30000 true (replyWith "{}"))) (lastUpdated synced) = false
      /\ effects (checkAndRunUpdate (hostFor "{}" (Some (JObject [])))
                    (tick 30000 true (replyWith "{}")) synced) = []
      /\ next (checkAndRunUpdate (hostFor "{}" (Some (JObject [])))
                 (tick 30000 true (replyWith "{}")) synced) = synced).
Proof.
  split.
  - split; [reflexivity|].
    apply (proj1 (proj2 (local_mode_always_refreshes
                           (hostFor "{}" (Some (JObject [])))
                           (tick 30000 false (replyWith "{}")) synced))).
    reflexivity.
  - split; [reflexivity|split; [reflexivity|]].
    apply (proj2 (proj2 (local_mode_always_refreshes
                           (hostFor "{}" (Some (JObject [])))
                           (tick 30000 true (replyWith "{}")) synced)));
      reflexivity.
Defined.

(** C4, as the specification states it, fails: in local mode the tick 30
    seconds after the last snapshot does call the estimate source. *)
Lemma staleness_gate_counterexample :
  lastUpdated synced = Some (DateMs 0)
  /\ now (tick 30000 false (replyWith "{}")) = (0 + 30 * 1000)%Z
  /\ db (tick 30000 false (replyWith "{}")) = false
  /\ fetches (effects (checkAndRunUpdate (hostFor "{}" (Some (JObject [])))
                         (tick 30000 false (replyWith "{}")) synced)) = 1%nat
  /\ ~ (forall (H : Host) (env : Env) (st : State) (t : Z),
          lastUpdated st = Some (DateMs t) -> now env = (t + 30 * 1000)%Z ->
          fetches (effects (checkAndRunUpdate H env st)) = 0%nat).
Proof.
  repeat split.
  intros Hall.
  specialize (Hall (hostFor "{}" (Some (JObject [])))
                   (tick 30000 false (replyWith "{}")) synced 0%Z eq_refl eq_refl).
  vm_compute in Hall. discriminate Hall.
Qed.

Lemma staleness_gate_shared_mode_witness :
  (now (tick 30000 true (replyWith "{}")) = (0 + 30 * 1000)%Z
   /\ effects (checkAndRunUpdate (hostFor "{}" (Some (JObject [])))
                 (tick 30000 true (replyWith "{}")) synced) = [])
  /\ (now (tick 61000 true (replyWith "{}")) = (0 + 61 * 1000)%Z
      /\ fetches (effects (checkAndRunUpdate (hostFor "{}" (Some (JObject [])))
                             (tick 61000 true (replyWith "{}")) synced)) = 1%nat).
Proof.
  split; (split; [reflexivity|]).
  - apply (proj1 (proj1 (staleness_gate_shared_mode (hostFor "{}" (Some (JObject []))))
                    (tick 30000 true (replyWith "{}")) synced 0%Z "uid-1"
                    eq_refl eq_refl eq_refl) eq_refl).
  - apply (proj2 (proj1 (staleness_gate_shared_mode (hostFor "{}" (Some (JObject []))))
                    (tick 61000 true (replyWith "{}")) synced 0%Z "uid-1"
                    eq_refl eq_refl eq_refl) eq_refl).
Defined.

(** C5, as the specification states it, fails: a signed-in client with
    status success and a stale snapshot receives the text [not json], and the
    run ends with the status loading, not with the status it had before. *)
Lemma malformed_payload_counterexample :
  callGemini (hostFor "not json" None) true (reply (tick 61000 true (replyWith "not json")))
    = inr (JString "not json")
  /\ (exists e : exn, JSON_parse (hostFor "not json" None) (JString "not json") = inl e)
  /\ apiStatus synced = "success"
  /\ apiStatus (next (checkAndRunUpdate (hostFor "not json" None)
                        (tick 61000 true (replyWith "not json")) synced)) = "loading"
  /\ apiStatus (next (checkAndRunUpdate (hostFor "not json" None)
                        (tick 61000 false (replyWith "not json")) synced)) = "loading"
  /\ ~ (forall (H : Host) (env : Env) (st : State) (jsonStr : value) (e : exn),
          callGemini H true (reply env) = inr jsonStr ->
          JSON_parse H jsonStr = inl e ->
          apiStatus (next (checkAndRunUpdate H env st)) = apiStatus st).
Proof.
  split; [reflexivity|]. split; [eexists; reflexivity|].
  split; [reflexivity|]. split; [reflexivity|]. split; [reflexivity|].
  intros Hall.
  specialize (Hall (hostFor "not json" None) (tick 61000 true (replyWith "not json"))
                   synced (JString "not json")
                   {| name := "SyntaxError"; message := "Unexpected token" |}
                   eq_refl eq_refl).
  vm_compute in Hall. discriminate Hall.
Qed.

Lemma parse_failure_keeps_state_witness :
  (attemptsRefresh (tick 61000 true (replyWith "not json")) synced = true
   /\ callGemini (hostFor "not json" None) true
        (reply (tick 61000 true (replyWith "not json"))) = inr (JString "not json")
   /\ JSON_parse (hostFor "not json" None) (JString "not json")
      = inl {| name := "SyntaxError"; message := "Unexpected token" |})
  /\ next (checkAndRunUpdate (hostFor "not json" None)
             (tick 61000 true (replyWith "not json")) synced)
     = setApiStatus "loading" synced
  /\ totalActive (next (checkAndRunUpdate (hostFor "not json" None)
                          (tick 61000 true (replyWith "not json")) synced))
     = 1000%float.
Proof.
  split; [repeat split|].
  pose proof (parse_failure_keeps_state (hostFor "not json" None)
                (tick 61000 true (replyWith "not json")) synced (JString "not json")
                {| name := "SyntaxError"; message := "Unexpected token" |}
                eq_refl eq_refl eq_refl) as (Hnext & _ & Htotal & _).
  split; [exact Hnext|exact Htotal].
Defined.

Lemma http_failure_is_reported_witness :
  reply (tick 61000 true unavailable)
    = Responded {| ok := false; status := 503; body := "overloaded" |}
  /\ attemptsRefresh (tick 61000 true unavailable) synced = true
  /\ apiStatus (next (checkAndRunUpdate (hostFor "{}" None)
                        (tick 61000 true unavailable) synced)) = "error"
  /\ errorDetails (next (checkAndRunUpdate (hostFor "{}" None)
                           (tick 61000 true unavailable) synced))
     = "HTTP 503: overloaded"
  /\ totalActive (next (checkAndRunUpdate (hostFor "{}" None)
                          (tick 61000 true unavailable) synced)) = 1000%float.
Proof.
  pose proof (http_failure_is_reported (hostFor "{}" None)
                (tick 61000 true unavailable) synced
                {| ok := false; status := 503; body := "overloaded" |}
                eq_refl eq_refl eq_refl) as (_ & _ & Hs & Hd & Ht & _).
  split; [reflexivity|]. split; [reflexivity|].
  split; [exact Hs|]. split; [exact Hd|exact Ht].
Defined.

(** C7 on a concrete payload.  With no positive previous total the block
    reaches the test [incomingTotal > 0], which is false for the total -5;
    the branch it guards would only assign what [stabilizedTotal] already
    holds, so -5 is accepted all the same: in local mode into the view
    state, in shared mode into the document sent to the store. *)
Theorem negative_total_is_accepted :
  totalActive initial = 0%float
  /\ (0 <? totalActive initial)%float = false
  /\ (0 <? -5)%float = false
  /\ stabilize (totalActive initial) (-5) = (-5)%float
  /\ totalActive (next (checkAndRunUpdate
                          (hostFor (payloadText "-5") (Some (JObject [("total", JNumber (-5))])))
                          (tick 0 false (replyWith (payloadText "-5"))) initial))
     = (-5)%float
  /\ persisted (effects (checkAndRunUpdate
                           (hostFor (payloadText "-5") (Some (JObject [("total", JNumber (-5))])))
                           (tick 61000 true (replyWith (payloadText "-5")))
                           (setTotalActive 0 synced)))
     = [(-5)%float]
  /\ (-5 <? 0)%float = true.
Proof. repeat split. Qed.

Lemma accepted_total_nonneg_witness :
  (0 <=? totalActive initial)%float = true
  /\ parsedPayload (hostFor (payloadText "5000") (Some (JObject [("total", JNumber 5000)])))
       (tick 0 false (replyWith (payloadText "5000")))
     = Some (JObject [("total", JNumber 5000)])
  /\ totalActive (next (checkAndRunUpdate
                          (hostFor (payloadText "5000") (Some (JObject [("total", JNumber 5000)])))
                          (tick 0 false (replyWith (payloadText "5000"))) initial))
     = 5000%float
  /\ (0 <=? totalActive (next (checkAndRunUpdate
                          (hostFor (payloadText "5000") (Some (JObject [("total", JNumber 5000)])))
                          (tick 0 false (replyWith (payloadText "5000"))) initial)))%float
     = true.
Proof.
  split; [reflexivity|]. split; [reflexivity|]. split; [reflexivity|].
  refine (proj1 (proj2 (proj1 (accepted_total_nonneg
                  (hostFor (payloadText "5000") (Some (JObject [("total", JNumber 5000)]))))
               (tick 0 false (replyWith (payloadText "5000"))) initial _)) eq_refl).
  intros data Hdata. vm_compute in Hdata.
  injection Hdata as <-. reflexivity.
Defined.

(** The end-to-end run of the specification: in local mode a first reply of
    total 5000 is accepted with status success, and a following reply of
    total 4000 is held at 4750. *)
Example local_mode_end_to_end :
  totalActive (next (checkAndRunUpdate
                       (hostFor (payloadText "5000") (Some (JObject [("total", JNumber 5000)])))
                       (tick 0 false (replyWith (payloadText "5000"))) initial))
    = 5000%float
  /\ apiStatus (next (checkAndRunUpdate
                        (hostFor (payloadText "5000") (Some (JObject [("total", JNumber 5000)])))
                        (tick 0 false (replyWith (payloadText "5000"))) initial))
     = "success"
  /\ totalActive (next (checkAndRunUpdate
                          (hostFor (payloadText "4000") (Some (JObject [("total", JNumber 4000)])))
                          (tick 10000 false (replyWith (payloadText "4000")))
                          (setTotalActive 5000 initial)))
     = 4750%float.
Proof. repeat split. Qed.

End SchedulerExamples.

(** ** The display animator *)

Section Animator.
Import JS App Spec Demo.
Local Open Scope float_scope.

Lemma frames_add (a b : nat) (t : float) :
  forall c, frames (a + b) t c = frames b t (frames a t c).
Proof. induction a as [|a IH]; intros c; cbn; [reflexivity|apply IH]. Qed.

Lemma frames_fixed (t : float) :
  animate (JNumber t) (JNumber t) = t -> forall n, frames n t t = t.
Proof. intros Ht n. induction n as [|n IH]; cbn; [reflexivity|now rewrite Ht]. Qed.

Lemma frames_settled (reach n : nat) (t c : float) :
  animate (JNumber t) (JNumber t) = t ->
  frames reach t c = t -> (reach <= n)%nat -> frames n t c = t.
Proof.
  intros Ht Hreach Hn.
  replace n with (reach + (n - reach))%nat by lia.
  rewrite frames_add, Hreach. now apply frames_fixed.
Qed.

Lemma frames_S (k : nat) (t : float) :
  forall c, frames (S k) t c = animate (JNumber t) (JNumber (frames k t c)).
Proof. induction k as [|k IH]; intros c; [reflexivity|]. cbn [frames] in *. apply IH. Qed.

Lemma climbs_sound (n : nat) :
  forall c, climbs n c = true ->
  forall k, (k < n)%nat ->
    (frames k 1000 c <? frames (S k) 1000 c) = true
    /\ (frames (S k) 1000 c <=? 1000) = true.
Proof.
  induction n as [|n IH]; intros c Hc k Hk; [lia|].
  cbn [climbs] in Hc.
  apply andb_prop in Hc as [Hc Hrest]. apply andb_prop in Hc as [Hup Hle].
  destruct k as [|k].
  - cbn [frames]. now split.
  - change (frames (S k) 1000 c) with (frames k 1000 (animate (JNumber 1000) (JNumber c))).
    change (frames (S (S k)) 1000 c)
      with (frames (S k) 1000 (animate (JNumber 1000) (JNumber c))).
    apply IH; [exact Hrest|lia].
Qed.

Lemma settles_sound (n : nat) (t s : float) :
  forall c, settles n t s c = true ->
  frames n t c = t
  /\ forall j, (j <= n)%nat ->
       (0 <=? frames j t c) = true /\ between t s (frames j t c) = true.
Proof.
  induction n as [|n IH]; intros c Hc; cbn [settles] in Hc;
    apply andb_prop in Hc as [Hhere Hrest]; apply andb_prop in Hhere as [H0 Hb].
  - apply FloatAxioms.Leibniz.eqb_spec in Hrest. split; [exact Hrest|].
    intros j Hj. replace j with 0%nat by lia. now split.
  - destruct (IH _ Hrest) as [Hend Hway]. split; [exact Hend|].
    intros [|j] Hj; [now split|].
    change (frames (S j) t c) with (frames j t (animate (JNumber t) (JNumber c))).
    apply Hway. lia.
Qed.

Lemma retargets_sound (n : nat) :
  forall c, retargets n c = true ->
  forall k, (k <= n)%nat ->
    settles 123 500 (frames k 1000 c) (frames k 1000 c) = true.
Proof.
  induction n as [|n IH]; intros c Hc k Hk; cbn [retargets] in Hc;
    apply andb_prop in Hc as [Hhere Hrest].
  - replace k with 0%nat by lia. exact Hhere.
  - destruct k as [|k]; [exact Hhere|].
    change (frames (S k) 1000 c) with (frames k 1000 (animate (JNumber 1000) (JNumber c))).
    apply IH; [exact Hrest|lia].
Qed.

Lemma climbs_to_1000 : climbs 136 0 = true.
Proof. vm_compute. reflexivity. Qed.

Lemma retargets_to_500 : retargets 136 0 = true.
Proof. vm_compute. reflexivity. Qed.

(** C8. A step on two numbers returns the target when the remaining
    distance is below 1 and otherwise adds 5% of that distance to the
    displayed value.  From 0 towards 1000 every step goes strictly up without
    passing 1000, the 136th step lands on 1000 exactly, and every later step
    stays there.  If after any number [k <= 136] of those steps the target
    becomes 500, then 123 further steps land on 500 exactly and stay there,
    and every value on the way is non-negative and lies between the value at
    the change and 500. *)
Theorem animation_converges :
  (forall t c : float,
      PrimFloat.is_nan t = false -> PrimFloat.is_nan c = false ->
      animate (JNumber t) (JNumber c)
      = if Math_abs (t - c) <? 1 then t else c + (t - c) * 0.05)
  /\ frames 136 1000 0 = 1000
  /\ (forall k : nat, (k < 136)%nat ->
        (frames k 1000 0 <? frames (S k) 1000 0) = true
        /\ (frames (S k) 1000 0 <=? 1000) = true)
  /\ (forall n : nat, (136 <= n)%nat -> frames n 1000 0 = 1000)
  /\ (forall k : nat, (k <= 136)%nat ->
        frames 123 500 (frames k 1000 0) = 500
        /\ (forall n : nat, (123 <= n)%nat -> frames n 500 (frames k 1000 0) = 500)
        /\ (forall j : nat, (j <= 123)%nat ->
              (0 <=? frames j 500 (frames k 1000 0)) = true
              /\ between 500 (frames k 1000 0) (frames j 500 (frames k 1000 0)) = true)).
Proof.
  split; [|split; [|split; [|split]]].
  - intros t c Ht Hc. unfold animate, validNumber. now rewrite Ht, Hc.
  - reflexivity.
  - intros k Hk. now apply (climbs_sound 136 0 climbs_to_1000).
  - intros n Hn. now apply (frames_settled 136).
  - intros k Hk.
    pose proof (retargets_sound 136 0 retargets_to_500 k Hk) as Hs.
    destruct (settles_sound 123 500 _ _ Hs) as [Hend Hway].
    split; [exact Hend|]. split; [|exact Hway].
    intros n Hn. now apply (frames_settled 123).
Qed.

Lemma animation_converges_witness :
  ((PrimFloat.is_nan 1000 = false /\ PrimFloat.is_nan 0 = false)
   /\ animate (JNumber 1000) (JNumber 0) = 50)
  /\ ((10 < 136)%nat /\ (frames 10 1000 0 <? frames 11 1000 0) = true)
  /\ ((136 <= 200)%nat /\ frames 200 1000 0 = 1000)
  /\ ((50 <= 136)%nat /\ (150 >= 123)%nat /\ (7 <= 123)%nat
      /\ frames 150 500 (frames 50 1000 0) = 500
      /\ (0 <=? frames 7 500 (frames 50 1000 0)) = true).
Proof.
  destruct animation_converges as (Hstep & _ & Hup & Hstay & Hturn).
  split; [split; [split; reflexivity|]|split; [split; [lia|]|split; [split; [lia|]|]]].
  - rewrite (Hstep 1000 0 eq_refl eq_refl). reflexivity.
  - apply (Hup 10%nat). lia.
  - apply (Hstay 200%nat). lia.
  - assert (H50 : (50 <= 136)%nat) by lia.
    destruct (Hturn 50%nat H50) as (_ & Hlater & Hway).
    split; [exact H50|]. split; [lia|]. split; [lia|]. split.
    + apply Hlater. lia.
    + apply (Hway 7%nat). lia.
Defined.

(** Whatever is not a number, and NaN, is replaced by zero before the step. *)
Lemma animate_substitutes_zero (v w : value) :
  animate v w = animate (JNumber (validNumber v)) (JNumber (validNumber w))
  /\ (typeof v <> "number"%string -> animate v w = animate (JNumber 0) w)
  /\ (typeof w <> "number"%string -> animate v w = animate v (JNumber 0))
  /\ animate (JNumber nan) w = animate (JNumber 0) w
  /\ animate v (JNumber nan) = animate v (JNumber 0).
Proof.
  assert (Hidem : forall u, validNumber (JNumber (validNumber u)) = validNumber u).
  { intros u. unfold validNumber at 1.
    now rewrite validNumber_not_nan. }
  split; [unfold animate; now rewrite !Hidem|].
  split; [|split; [|split; reflexivity]].
  - intros Hv. destruct v; try reflexivity. now elim Hv.
  - intros Hw. destruct w; try reflexivity. now elim Hw.
Qed.

Lemma validNumber_finite (v : value) :
  notInfinite v = true -> finite (Prim2SF (validNumber v)) = true.
Proof.
  destruct v; try reflexivity. cbn [notInfinite validNumber]. intros Hx.
  apply negb_true_iff in Hx.
  destruct (PrimFloat.is_nan x) eqn:Hn; [reflexivity|].
  now apply FloatFacts.finite_spec.
Qed.

(** The part of C9 that holds: when neither the accepted total nor the
    displayed value is an infinite number, the step does not produce NaN. *)
Lemma animate_not_nan (v w : value) :
  notInfinite v = true -> notInfinite w = true ->
  PrimFloat.is_nan (animate v w) = false.
Proof.
  intros Hv Hw. apply validNumber_finite in Hv, Hw. unfold animate.
  destruct (Math_abs (validNumber v - validNumber w) <? 1).
  - now apply FloatFacts.is_nan_spec, FloatFacts.finite_not_nan.
  - apply FloatFacts.is_nan_spec, FloatFacts.add_finite; [exact Hw|].
    eapply FloatFacts.mul_not_nan; [reflexivity|].
    now apply FloatFacts.sub_finite.
Qed.

(** C9 on concrete inputs.  An infinite number passes the guard, and the
    step then computes [infinity - infinity]: with an infinite target and an
    infinite displayed value the step returns NaN.  Both arise from one
    payload: in local mode the total 1e999, which the JSON parser reads as
    infinity, is accepted at start-up; the first frame displays infinity, the
    second NaN. *)
Theorem animate_yields_nan :
  animate (JNumber infinity) (JNumber infinity) = nan
  /\ animate (JNumber 0) (JNumber infinity) = nan
  /\ totalActive (next (checkAndRunUpdate
                          (hostFor (payloadText "1e999")
                                   (Some (JObject [("total"%string, JNumber infinity)])))
                          (tick 0 false (replyWith (payloadText "1e999"))) initial))
     = infinity
  /\ displayNumber (frame (next (checkAndRunUpdate
                          (hostFor (payloadText "1e999")
                                   (Some (JObject [("total"%string, JNumber infinity)])))
                          (tick 0 false (replyWith (payloadText "1e999"))) initial)))
     = infinity
  /\ displayNumber (frame (frame (next (checkAndRunUpdate
                          (hostFor (payloadText "1e999")
                                   (Some (JObject [("total"%string, JNumber infinity)])))
                          (tick 0 false (replyWith (payloadText "1e999"))) initial))))
     = nan
  /\ PrimFloat.is_nan nan = true.
Proof. repeat split. Qed.

End Animator.

(** ** The text returned by the estimate source adapter *)

Module TextFacts.
Import JS App Rest.
Local Open Scope string_scope.

Lemma removeAll_fence_skip (s : string) :
  removeAll fence (fence ++ s) = removeAll fence s.
Proof. reflexivity. Qed.

Lemma removeAll_fence_keep (c : ascii) (s : string) :
  isPrefix fence (String c s) = false ->
  removeAll fence (String c s) = String c (removeAll fence s).
Proof.
  intros Hno. unfold removeAll. cbn [removeAll_from]. now rewrite Hno.
Qed.

Lemma isPrefix_fence_inv (s : string) :
  isPrefix fence s = true -> exists s', s = fence ++ s'.
Proof.
  unfold fence. intros Hp.
  destruct s as [|a s]; [discriminate Hp|].
  destruct s as [|b s]; [cbn in Hp; now rewrite andb_false_r in Hp|].
  destruct s as [|c s]; [cbn in Hp; now rewrite !andb_false_r in Hp|].
  exists s. cbn [isPrefix] in Hp.
  apply andb_prop in Hp as [Ha Hp]. apply andb_prop in Hp as [Hb Hp].
  apply andb_prop in Hp as [Hc _].
  apply Ascii.eqb_eq in Ha, Hb, Hc. now subst.
Qed.

(** After the removal no fence is left, and the result starts with no more
    backticks than the input when that has fewer than three. *)
Lemma removeAll_fence_free_upto (n : nat) :
  forall s, (String.length s <= n)%nat ->
    occurs fence (removeAll fence s) = false
    /\ (isPrefix "`" s = false -> isPrefix "`" (removeAll fence s) = false)
    /\ (isPrefix "``" s = false -> isPrefix "``" (removeAll fence s) = false).
Proof.
  induction n as [|n IH]; intros s Hlen.
  - destruct s; [now repeat split|cbn in Hlen; lia].
  - destruct s as [|c s]; [now repeat split|].
    destruct (isPrefix fence (String c s)) eqn:Hp.
    + destruct (isPrefix_fence_inv _ Hp) as [s' E]. rewrite E, removeAll_fence_skip.
      assert (Hs' : (String.length s' <= n)%nat).
      { rewrite E in Hlen. cbn in Hlen. lia. }
      destruct (IH s' Hs') as (Hfree & _ & _).
      split; [exact Hfree|]. split; intros Hno; discriminate Hno.
    + rewrite (removeAll_fence_keep c s Hp).
      assert (Hs : (String.length s <= n)%nat) by (cbn in Hlen; lia).
      destruct (IH s Hs) as (Hfree & H1 & H2).
      cbn [occurs]. rewrite Hfree, orb_false_r.
      unfold fence in Hp |- *. cbn [isPrefix] in *.
      destruct (Ascii.eqb "`" c) eqn:Hc; cbn [andb] in *.
      * split; [|split].
        -- change (isPrefix "``" (removeAll fence s) = false).
           apply H2. exact Hp.
        -- discriminate.
        -- intros Hno. change (isPrefix "`" (removeAll fence s) = false).
           apply H1. exact Hno.
      * now repeat split.
Qed.

Lemma removeAll_fence_free (s : string) : occurs fence (removeAll fence s) = false.
Proof. exact (proj1 (removeAll_fence_free_upto (String.length s) s (le_n _))). Qed.

Lemma occurs_tail (pat : string) (c : ascii) (s : string) :
  occurs pat (String c s) = false -> occurs pat s = false.
Proof. cbn [occurs]. intros Hno. now apply orb_false_elim in Hno. Qed.

Lemma occurs_trimStart (pat s : string) :
  occurs pat s = false -> occurs pat (trimStart s) = false.
Proof.
  induction s as [|c s IH]; intros Hno; [exact Hno|].
  cbn [trimStart]. destruct (isWhiteSpace c); [|exact Hno].
  apply IH. now apply occurs_tail in Hno.
Qed.

Lemma isPrefix_trimEnd (s : string) :
  forall p, isPrefix p (trimEnd s) = true -> isPrefix p s = true.
Proof.
  induction s as [|c s IH]; intros p Hp; [exact Hp|].
  cbn [trimEnd] in Hp.
  destruct (isWhiteSpace c && String.eqb (trimEnd s) "").
  - destruct p; [reflexivity|discriminate Hp].
  - destruct p as [|a p]; [reflexivity|]. cbn [isPrefix] in *.
    apply andb_prop in Hp as [Ha Hp]. rewrite Ha. cbn. now apply IH.
Qed.

Lemma occurs_trimEnd_inv (pat s : string) :
  occurs pat (trimEnd s) = true -> occurs pat s = true.
Proof.
  induction s as [|c s IH]; intros Ho; [exact Ho|].
  destruct (isWhiteSpace c && String.eqb (trimEnd s) "") eqn:Hw.
  - cbn [trimEnd] in Ho. rewrite Hw in Ho.
    destruct pat; [reflexivity|discriminate Ho].
  - assert (E : trimEnd (String c s) = String c (trimEnd s))
      by (cbn [trimEnd]; now rewrite Hw).
    cbn [occurs]. apply orb_true_iff.
    rewrite E in Ho. cbn [occurs] in Ho. apply orb_true_iff in Ho as [Hp|Hr].
    + left. apply isPrefix_trimEnd. now rewrite E.
    + right. now apply IH.
Qed.

Lemma occurs_trimEnd (pat s : string) :
  occurs pat s = false -> occurs pat (trimEnd s) = false.
Proof.
  intros Hno. destruct (occurs pat (trimEnd s)) eqn:Ho; [|reflexivity].
  apply occurs_trimEnd_inv in Ho. congruence.
Qed.

Lemma trimStart_start (s : string) : startsWithWhiteSpace (trimStart s) = false.
Proof.
  induction s as [|c s IH]; [reflexivity|]. cbn [trimStart].
  destruct (isWhiteSpace c) eqn:Hc; [exact IH|]. cbn. exact Hc.
Qed.

Lemma trimEnd_start (s : string) :
  startsWithWhiteSpace s = false -> startsWithWhiteSpace (trimEnd s) = false.
Proof.
  destruct s as [|c s]; [reflexivity|]. cbn [startsWithWhiteSpace trimEnd].
  intros Hc. rewrite Hc. cbn [andb startsWithWhiteSpace]. exact Hc.
Qed.

Lemma trimEnd_end (s : string) : endsWithWhiteSpace (trimEnd s) = false.
Proof.
  induction s as [|c s IH]; [reflexivity|]. cbn [trimEnd].
  destruct (isWhiteSpace c && String.eqb (trimEnd s) "") eqn:Hw; [reflexivity|].
  destruct (trimEnd s) as [|d r] eqn:Hr.
  - cbn in *. now rewrite andb_true_r in Hw.
  - exact IH.
Qed.

End TextFacts.

(** ** More on the estimate source adapter and the refresh cycle *)

Section Adapter.
Import JS App Spec Rest TextFacts.
Local Open Scope string_scope.

Variable H : Host.

Lemma read_present (v : value) (k : string) :
  isNullish v = false -> read H v k = inr (get v k).
Proof. destruct v; cbn; intros Hv; try discriminate Hv; reflexivity. Qed.

Lemma read_ok_present (v w : value) (k : string) :
  read H v k = inr w -> isNullish v = false.
Proof. destruct v; cbn; intros Hr; try discriminate Hr; reflexivity. Qed.

(** X1. In search mode the adapter returns only strings, and only from a
    response that is [ok] and whose body parses to a value that is neither
    [null] nor [undefined]; the string contains no code fence and neither
    starts nor ends with white space. *)
Theorem adapter_text_is_clean :
  forall (net : FetchResult) (v : value),
    callGemini H true net = inr v ->
    (exists s : string,
        v = JString s /\ occurs fence s = false
        /\ startsWithWhiteSpace s = false /\ endsWithWhiteSpace s = false)
    /\ (exists (r : Response) (data : value),
          net = Responded r /\ ok r = true
          /\ JSON_parse H (JString (body r)) = inr data /\ isNullish data = false).
Proof.
  intros net v. unfold callGemini.
  destruct net as [e|r]; [discriminate|].
  destruct (ok r) eqn:Hok; cbn [negb]; [|discriminate].
  destruct (JSON_parse H (JString (body r))) as [e|data] eqn:Hparse; [discriminate|].
  destruct (read H data "candidates") as [e|candidates] eqn:Hread; [discriminate|].
  intros Hv. split.
  - destruct (if truthy _ then _ else JString "{}") as [| |b|x|s|items|fields];
      try discriminate Hv.
    injection Hv as <-. eexists. split; [reflexivity|]. split; [|split].
    + apply occurs_trimEnd, occurs_trimStart, removeAll_fence_free.
    + apply trimEnd_start, trimStart_start.
    + apply trimEnd_end.
  - exists r, data. repeat split; trivial. now apply read_ok_present in Hread.
Qed.

Lemma callGemini_without_text (useSearch : bool) (r : Response) (data : value) :
  ok r = true -> JSON_parse H (JString (body r)) = inr data ->
  isNullish data = false -> truthy (candidateText data) = false ->
  callGemini H useSearch (Responded r) = inr (JString "{}").
Proof.
  intros Hok Hparse Hdata Htext. unfold callGemini.
  rewrite Hok, Hparse, (read_present data "candidates" Hdata). cbn [negb].
  fold (candidateText data). rewrite Htext. now destruct useSearch.
Qed.

(** X2. When the parsed body has no text part (no [candidates], an empty
    [candidates] array, or anything falsy at the end of the chain), the
    adapter returns the text of an empty object, in either mode. *)
Theorem adapter_defaults_to_empty_object :
  (forall (useSearch : bool) (r : Response) (data : value),
      ok r = true -> JSON_parse H (JString (body r)) = inr data ->
      isNullish data = false -> truthy (candidateText data) = false ->
      callGemini H useSearch (Responded r) = inr (JString "{}"))
  /\ (forall data : value,
        isNullish (get data "candidates") = true \/ get data "candidates" = JArray [] ->
        truthy (candidateText data) = false).
Proof.
  split.
  - intros useSearch r data. apply callGemini_without_text.
  - intros data Hc. unfold candidateText. destruct Hc as [Hn|Hn].
    + now destruct (get data "candidates").
    + now rewrite Hn.
Qed.

(** X3. A reply without a text part is processed as the payload [{}]: the
    incoming total is 0.  In local mode the cycle then ends with status
    success, stamps the time, keeps trend and headlines, and accepts
    [stabilize(previous, 0)], which for a positive previous total is
    [max(0, round(previous * 0.95))]; in shared mode that same total is sent
    to the store. *)
Theorem empty_reply_decays_total :
  forall (env : Env) (st : State) (r : Response) (data : value),
    reply env = Responded r -> ok r = true ->
    JSON_parse H (JString (body r)) = inr data -> isNullish data = false ->
    truthy (candidateText data) = false ->
    JSON_parse H (JString "{}") = inr (JObject []) ->
    let o := checkAndRunUpdate H env st in
    (db env = false ->
       totalActive (next o) = stabilize (totalActive st) 0
       /\ ((0 <? totalActive st)%float = true ->
           totalActive (next o) = Math_max 0 (Math_round (totalActive st * 0.95)))
       /\ apiStatus (next o) = "success"
       /\ lastUpdated (next o) = Some (DateMs (stampTime env))
       /\ trend (next o) = trend st /\ headlines (next o) = headlines st)
    /\ (db env = true -> attemptsRefresh env st = true ->
        persisted (effects o) = [stabilize (totalActive st) 0]).
Proof.
  intros env st r data Hreply Hok Hparse Hdata Htext Hempty o.
  pose proof (callGemini_without_text true r data Hok Hparse Hdata Htext) as Hcall.
  rewrite <- Hreply in Hcall. split.
  - intros Hlocal.
    assert (Ha : attemptsRefresh env st = true)
      by (unfold attemptsRefresh; rewrite Hlocal; cbn; now rewrite orb_true_r).
    assert (Ho : next o = acceptLocally (JObject []) (stabilize (totalActive st) 0)
                            (stampTime env) (setApiStatus "loading" st)).
    { subst o. rewrite (run_attempted H env st Ha). unfold tryRefresh.
      rewrite Hcall, Hempty, Hlocal. reflexivity. }
    rewrite Ho. cbn. repeat split.
    intros Hpos. unfold stabilize. now rewrite Hpos.
  - intros Hshared Ha. subst o. rewrite (run_attempted H env st Ha).
    unfold tryRefresh. rewrite Hcall, Hempty, Hshared. cbn [read negb].
    unfold attemptsRefresh in Ha. rewrite Hshared in Ha. cbn [negb orb] in Ha.
    rewrite orb_false_r in Ha. apply andb_prop in Ha as [_ Hu].
    cbn [user setApiStatus]. destruct (user st) as [uid|]; [|discriminate Hu].
    now destruct (writeFailure env).
Qed.

Lemma parsedPayload_inv (env : Env) (data : value) :
  parsedPayload H env = Some data ->
  exists jsonStr : value,
    callGemini H true (reply env) = inr jsonStr /\ JSON_parse H jsonStr = inr data.
Proof.
  unfold parsedPayload.
  destruct (callGemini H true (reply env)) as [e|jsonStr]; [discriminate|].
  destruct (JSON_parse H jsonStr) as [e|d] eqn:Hp; [discriminate|].
  intros [= <-]. now exists jsonStr.
Qed.

(** X4. In shared mode, when the store rejects the write, the cycle ends
    with status error and the rejection's message as error details; the
    accepted total, trend, headlines and time of the last update are not
    touched, the document that was offered carries the stabilised total, and
    the promise is not rejected. *)
Theorem write_failure_is_reported :
  forall (env : Env) (st : State) (uid : string) (data : value) (e : exn),
    db env = true -> user st = Some uid ->
    needsUpdate (now env) (lastUpdated st) = true ->
    parsedPayload H env = Some data -> isNullish data = false ->
    writeFailure env = Some e ->
    let o := checkAndRunUpdate H env st in
    next o = setErrorDetails (message e)
               (setApiStatus "error" (setApiStatus "loading" st))
    /\ apiStatus (next o) = "error"
    /\ errorDetails (next o) = message e
    /\ totalActive (next o) = totalActive st
    /\ lastUpdated (next o) = lastUpdated st
    /\ persisted (effects o)
       = [stabilize (totalActive st) (incomingTotalOf (get data "total"))]
    /\ rejected o = None.
Proof.
  intros env st uid data e Hdb Huser Hneeds Hpay Hdata Hfail o.
  assert (Ha : attemptsRefresh env st = true)
    by (unfold attemptsRefresh; now rewrite Hneeds, Hdb, Huser).
  destruct (parsedPayload_inv env data Hpay) as (jsonStr & Hcall & Hparse).
  assert (Ho : o = {| next := setErrorDetails (message e)
                               (setApiStatus "error" (setApiStatus "loading" st));
                      effects := [Fetch;
                                  SetDoc {| total := stabilize (totalActive st)
                                                       (incomingTotalOf (get data "total"));
                                            snapTrend := get data "trend";
                                            snapHeadlines := get data "headlines";
                                            timestamp := stampTime env;
                                            updatedBy := uid |};
                                  ConsoleError "Update Sequence Failed:"];
                      rejected := None |}).
  { subst o. rewrite (run_attempted H env st Ha). unfold tryRefresh.
    rewrite Hcall, Hparse, (read_present data "total" Hdata), Hdb.
    cbn [negb user setApiStatus totalActive]. now rewrite Huser, Hfail. }
  rewrite Ho. now repeat split.
Qed.

(** X5. Every document a run sends to the store comes from shared mode, is
    signed with the uid of the current user, is stamped with the clock of
    the run, and carries the stabilised total of the parsed payload; a run
    sends at most that one document, after exactly one call to the estimate
    source.  In local mode nothing is sent. *)
Theorem store_writes_are_attributed :
  (forall (env : Env) (st : State) (d : Snapshot),
      In (SetDoc d) (effects (checkAndRunUpdate H env st)) ->
      db env = true
      /\ user st = Some (updatedBy d)
      /\ timestamp d = stampTime env
      /\ (exists data : value,
            parsedPayload H env = Some data
            /\ total d = stabilize (totalActive st) (incomingTotalOf (get data "total"))
            /\ snapTrend d = get data "trend"
            /\ snapHeadlines d = get data "headlines")
      /\ persisted (effects (checkAndRunUpdate H env st)) = [total d]
      /\ fetches (effects (checkAndRunUpdate H env st)) = 1%nat)
  /\ (forall (env : Env) (st : State),
        db env = false -> persisted (effects (checkAndRunUpdate H env st)) = []).
Proof.
  split.
  - intros env st d.
    destruct (attemptsRefresh env st) eqn:Ha;
      [|rewrite (run_skipped H env st Ha); intros []].
    rewrite (run_attempted H env st Ha). unfold tryRefresh, parsedPayload.
    destruct (callGemini H true (reply env)) as [e|jsonStr];
      [cbn; intuition discriminate|].
    destruct (JSON_parse H jsonStr) as [e|data];
      [cbn; intuition discriminate|].
    destruct (read H data "total") as [e|dataTotal] eqn:Hread;
      [cbn; intuition discriminate|].
    apply read_get in Hread. subst dataTotal.
    destruct (db env); cbn [negb]; [|cbn; intuition discriminate].
    cbn [user setApiStatus totalActive].
    destruct (user st) as [uid|]; [|cbn; intuition discriminate].
    destruct (writeFailure env); cbn;
      (intros [Hd|[Hd|Hd]]; try discriminate Hd; try contradiction;
       try (destruct Hd as [Hd|[]]; discriminate Hd);
       injection Hd as <-; cbn; repeat split; eexists; repeat split).
  - intros env st Hlocal.
    destruct (attemptsRefresh env st) eqn:Ha;
      [|now rewrite (run_skipped H env st Ha)].
    rewrite (run_attempted H env st Ha). unfold tryRefresh. rewrite Hlocal.
    destruct (callGemini H true (reply env)) as [e|jsonStr]; [reflexivity|].
    destruct (JSON_parse H jsonStr) as [e|data]; [reflexivity|].
    now destruct (read H data "total").
Qed.

(** X6. In shared mode a client whose last update is an invalid date never
    refreshes: every tick, at every clock value, leaves the state as it is
    and performs nothing, and so does any sequence of ticks. *)
Theorem invalid_date_blocks_refresh :
  forall (st : State),
    lastUpdated st = Some InvalidDate ->
    (forall env : Env,
        db env = true ->
        checkAndRunUpdate H env st = {| next := st; effects := []; rejected := None |})
    /\ (forall ticks : list Env,
          Forall (fun env => db env = true) ticks -> runTicks H ticks st = (st, [])).
Proof.
  intros st Hlast.
  assert (Hone : forall env : Env, db env = true ->
            checkAndRunUpdate H env st = {| next := st; effects := []; rejected := None |}).
  { intros env Hdb. apply run_skipped. unfold attemptsRefresh, needsUpdate.
    now rewrite Hlast, Hdb. }
  split; [exact Hone|].
  intros ticks Hall. induction Hall as [|env ticks Hdb _ IH]; [reflexivity|].
  cbn [runTicks]. rewrite (Hone env Hdb). cbn [next effects]. now rewrite IH.
Qed.

(** X7. The staleness test is strict and monotone in the clock: exactly 60
    seconds after the last update no update is needed, one millisecond later
    it is; once needed it stays needed at every later clock value; and a
    clock that is not ahead of the last update never needs one. *)
Theorem staleness_boundary :
  (forall t : Z, needsUpdate (t + 60000) (Some (DateMs t)) = false
                 /\ needsUpdate (t + 60001) (Some (DateMs t)) = true)
  /\ (forall (now now' : Z) (last : option Date),
        (now <= now')%Z -> needsUpdate now last = true -> needsUpdate now' last = true)
  /\ (forall now t : Z, (now <= t)%Z -> needsUpdate now (Some (DateMs t)) = false).
Proof.
  unfold needsUpdate, stalenessThreshold. split; [|split].
  - intros t. split; [apply Z.ltb_ge|apply Z.ltb_lt]; lia.
  - intros now now' [[|t]|] Hle; trivial.
    rewrite !Z.ltb_lt. lia.
  - intros now t Hle. apply Z.ltb_ge. lia.
Qed.

(** X8. When the store has no document, the subscription only sets the time
    of the last update to the epoch; the next tick of a signed-in client in
    shared mode, at any clock value above the threshold, then calls the
    estimate source once. *)
Theorem missing_document_triggers_refresh :
  forall (env : Env) (st : State) (uid : string),
    db env = true -> user st = Some uid -> (stalenessThreshold < now env)%Z ->
    onSnapshot H None st = setLastUpdated (Some (DateMs 0)) st
    /\ fetches (effects (checkAndRunUpdate H env (onSnapshot H None st))) = 1%nat.
Proof.
  intros env st uid Hdb Huser Hnow. split; [reflexivity|].
  apply attempted_fetches_once. unfold attemptsRefresh.
  cbn [onSnapshot lastUpdated setLastUpdated user needsUpdate].
  assert (Hlt : (stalenessThreshold <? now env - 0)%Z = true)
    by (apply Z.ltb_lt; lia).
  now rewrite Hdb, Huser, Hlt.
Qed.

(** X9. In shared mode a run of the refresh cycle changes nothing but the
    status and the error details: the accepted total, the displayed value,
    trend, headlines, the time of the last update and the user are those of
    before, whatever the reply; and the status it leaves is the previous
    one, loading or error, never a success of its own. *)
Theorem shared_mode_cycle_keeps_view :
  forall (env : Env) (st : State),
    db env = true ->
    let o := checkAndRunUpdate H env st in
    totalActive (next o) = totalActive st
    /\ displayNumber (next o) = displayNumber st
    /\ trend (next o) = trend st
    /\ headlines (next o) = headlines st
    /\ lastUpdated (next o) = lastUpdated st
    /\ user (next o) = user st
    /\ (apiStatus (next o) = apiStatus st
        \/ apiStatus (next o) = "loading" \/ apiStatus (next o) = "error").
Proof.
  intros env st Hdb o. subst o.
  destruct (attemptsRefresh env st) eqn:Ha;
    [|rewrite (run_skipped H env st Ha); repeat (split; [reflexivity|]); now left].
  rewrite (run_attempted H env st Ha). unfold tryRefresh. rewrite Hdb. cbn [negb].
  destruct (callGemini H true (reply env)) as [e|jsonStr];
    [repeat (split; [reflexivity|]); right; now right|].
  destruct (JSON_parse H jsonStr) as [e|data];
    [repeat (split; [reflexivity|]); right; now left|].
  destruct (read H data "total") as [e|dataTotal];
    [repeat (split; [reflexivity|]); right; now right|].
  cbn [user setApiStatus].
  destruct (user st) as [uid|] eqn:Hu;
    [|repeat (split; [first [reflexivity|exact Hu]|]); right; now right].
  destruct (writeFailure env);
    repeat (split; [first [reflexivity|exact Hu]|]); right;
    [now right|now left].
Qed.

(** X10. The subscription keeps the view well formed: after a snapshot of an
    existing document the status is success, the accepted total is not NaN,
    the trend is truthy, and headlines that were an array are still an
    array; no snapshot touches the displayed value, the user or the error
    details, so an error message recorded earlier stays beside the status
    success. *)
Theorem snapshot_keeps_view_wellformed :
  forall (docSnap : option value) (st : State),
    (isArray (headlines st) = true ->
     isArray (headlines (onSnapshot H docSnap st)) = true)
    /\ (truthy (trend st) = true -> truthy (trend (onSnapshot H docSnap st)) = true)
    /\ errorDetails (onSnapshot H docSnap st) = errorDetails st
    /\ displayNumber (onSnapshot H docSnap st) = displayNumber st
    /\ user (onSnapshot H docSnap st) = user st
    /\ (forall data : value,
          docSnap = Some data ->
          apiStatus (onSnapshot H docSnap st) = "success"
          /\ truthy (trend (onSnapshot H docSnap st)) = true
          /\ PrimFloat.is_nan (totalActive (onSnapshot H docSnap st)) = false).
Proof.
  intros [data|] st.
  2:{ cbn. repeat split; easy. }
  assert (Ht : truthy (if truthy (get data "trend") then get data "trend"
                       else JString "stable") = true)
    by (destruct (truthy (get data "trend")) eqn:E; [exact E|reflexivity]).
  unfold onSnapshot.
  destruct (truthy (get data "headlines") && isArray (get data "headlines")) eqn:Hh;
    destruct (truthy (get data "timestamp"));
    cbn [headlines trend errorDetails displayNumber user apiStatus totalActive
         setTotalActive setTrend setHeadlines setLastUpdated setApiStatus];
    (split; [intros Harr; try exact Harr; now apply andb_prop in Hh|]);
    (split; [intros _; exact Ht|]);
    (split; [reflexivity|]); (split; [reflexivity|]); (split; [reflexivity|]);
    intros d _; (split; [reflexivity|]); (split; [exact Ht|]);
    apply validNumber_not_nan.
Qed.

(** X11. The error details are never cleared: a run of the refresh cycle
    either leaves them as they are or ends with status error. *)
Theorem error_details_are_never_cleared :
  forall (env : Env) (st : State),
    errorDetails (next (checkAndRunUpdate H env st)) = errorDetails st
    \/ apiStatus (next (checkAndRunUpdate H env st)) = "error".
Proof.
  intros env st.
  destruct (attemptsRefresh env st) eqn:Ha;
    [|left; now rewrite (run_skipped H env st Ha)].
  rewrite (run_attempted H env st Ha). unfold tryRefresh.
  destruct (callGemini H true (reply env)) as [e|jsonStr]; [now right|].
  destruct (JSON_parse H jsonStr) as [e|data]; [now left|].
  destruct (read H data "total") as [e|dataTotal]; [now right|].
  destruct (negb (db env)).
  - left. cbn [next]. unfold acceptLocally.
    now destruct (truthy (get data "trend")), (truthy (get data "headlines")).
  - cbn [user setApiStatus]. destruct (user st); [|now right].
    destruct (writeFailure env); [now right|now left].
Qed.

End Adapter.

(** ** More facts about binary64 arithmetic *)

Module MoreFloatFacts.
Import JS Spec Rest FloatFacts.

Lemma sub_self (t : float) :
  finite (Prim2SF t) = true -> exists s : bool, Prim2SF (t - t)%float = S754_zero s.
Proof.
  rewrite sub_spec.
  destruct (Prim2SF t) as [s|s| |s m e]; try discriminate; intros _.
  - destruct s; eexists; reflexivity.
  - unfold SF64sub, SFsub. rewrite Z.sub_diag. eexists. reflexivity.
Qed.

Lemma abs_zero_below_one (d : float) (s : bool) :
  Prim2SF d = S754_zero s -> (Math_abs d <? 1)%float = true.
Proof. intros E. unfold Math_abs. now rewrite ltb_spec, abs_spec, E. Qed.

Lemma half_not_below_abs_zero (d : float) (s : bool) :
  Prim2SF d = S754_zero s -> (0.5 <? Math_abs d)%float = false.
Proof. intros E. unfold Math_abs. now rewrite ltb_spec, abs_spec, E. Qed.

Lemma div_eucl_nonneg (a : Z) (b : positive) :
  (0 <= a)%Z -> (0 <= fst (Z.div_eucl a (Zpos b)))%Z.
Proof.
  intros Ha. change (fst (Z.div_eucl a (Zpos b))) with (a / Zpos b)%Z.
  apply Z.div_pos; lia.
Qed.

Lemma div_nonneg (x c : float) (m : positive) (e : Z) :
  Prim2SF c = S754_finite false m e ->
  (0 <=? x)%float = true -> (0 <=? x / c)%float = true.
Proof.
  rewrite !leb_zero_nonneg, div_spec. intros -> Hx.
  destruct (nonneg_cases _ Hx) as [[s ->]|[->|(mx & ex & ->)]]; cbn -[SFdiv_core_binary].
  - reflexivity.
  - reflexivity.
  - unfold SFdiv_core_binary.
    set (m' := match (ex - e - _)%Z with Z0 => Zpos mx | Zpos _ => _ | Zneg _ => 0%Z end).
    assert (Hm' : (0 <= m')%Z).
    { subst m'. destruct (ex - e - _)%Z; try lia. apply Z.shiftl_nonneg. lia. }
    pose proof (div_eucl_nonneg m' m Hm') as Hq.
    destruct (Z.div_eucl m' (Zpos m)) as [q r]. cbn [fst] in Hq.
    now apply binary_round_aux_nonneg.
Qed.

Lemma sub_from_finite (x y : float) :
  finite (Prim2SF x) = true -> Prim2SF y <> S754_nan ->
  Prim2SF (x - y)%float <> S754_nan.
Proof.
  rewrite sub_spec.
  destruct (Prim2SF x) as [s|s| |s m e], (Prim2SF y) as [s'|s'| |s' m' e'];
    try discriminate; intros _ Hy; cbn -[binary_normalize];
    try (destruct s, s'; discriminate); try discriminate; try easy.
  apply binary_normalize_not_nan.
Qed.

Lemma Math_max_ge_left (a b : float) :
  PrimFloat.is_nan a = false -> PrimFloat.is_nan b = false ->
  (a <=? Math_max a b)%float = true.
Proof.
  intros Ha Hb. unfold Math_max. rewrite Ha, Hb. cbn [orb].
  destruct (a <? b)%float eqn:Hab; [now apply ltb_leb|].
  destruct (b <? a)%float eqn:Hba; [now apply leb_refl|].
  destruct (PrimFloat.is_zero a && PrimFloat.get_sign a);
    [now apply leb_total|now apply leb_refl].
Qed.

Lemma Math_min_le_right (a b : float) : (b <? Math_min a b)%float = false.
Proof.
  unfold Math_min.
  destruct (PrimFloat.is_nan a || PrimFloat.is_nan b).
  - rewrite ltb_spec. unfold SFltb.
    replace (Prim2SF nan) with S754_nan by reflexivity.
    now destruct (Prim2SF b).
  - destruct (a <? b)%float eqn:Hab; [now apply leb_not_ltb, ltb_leb|].
    destruct (b <? a)%float eqn:Hba; [apply ltb_irrefl|].
    destruct (PrimFloat.is_zero a && PrimFloat.get_sign a);
      [exact Hba|apply ltb_irrefl].
Qed.

Lemma positive_or_below (t : float) :
  PrimFloat.is_nan t = false -> (t <=? 0)%float = false -> (0 <? t)%float = true.
Proof.
  intros Ht Hle. destruct (0 <? t)%float eqn:Hpos; [reflexivity|].
  rewrite (leb_total 0 t eq_refl Ht Hpos) in Hle. discriminate Hle.
Qed.

End MoreFloatFacts.

(** ** The animator at rest, the ticker, the visuals and the start-up *)

Section RestFacts.
Import JS App Spec Rest FloatFacts MoreFloatFacts.
Local Open Scope float_scope.

(** X12. For every finite target: a displayed value equal to the target is
    kept by every further step and no further frame is requested; and a step
    taken within a distance below 1 lands on the target, after which the
    animation is at rest in that sense. *)
Theorem animation_rests_on_target :
  forall t : float,
    PrimFloat.is_nan t = false -> PrimFloat.is_infinity t = false ->
    animate (JNumber t) (JNumber t) = t
    /\ keepRunning t t = false
    /\ (forall n : nat, frames n t t = t)
    /\ (forall c : float,
          PrimFloat.is_nan c = false ->
          (Math_abs (t - c) <? 1) = true ->
          animate (JNumber t) (JNumber c) = t
          /\ keepRunning t (animate (JNumber t) (JNumber c)) = false).
Proof.
  intros t Hn Hi.
  destruct (sub_self t (finite_spec t Hn Hi)) as [s Hz].
  assert (Hfix : animate (JNumber t) (JNumber t) = t).
  { unfold animate, validNumber. rewrite Hn.
    now rewrite (abs_zero_below_one _ s Hz). }
  assert (Hrest : keepRunning t t = false).
  { unfold keepRunning. exact (half_not_below_abs_zero _ s Hz). }
  split; [exact Hfix|]. split; [exact Hrest|]. split.
  - intros n. induction n as [|n IH]; cbn [frames]; [reflexivity|now rewrite Hfix].
  - intros c Hc Hnear.
    assert (Hsnap : animate (JNumber t) (JNumber c) = t).
    { unfold animate, validNumber. now rewrite Hn, Hc, Hnear. }
    split; [exact Hsnap|]. now rewrite Hsnap.
Qed.

Lemma wraps_up_to_100 : allFrom 100 1 wraps = true.
Proof. vm_compute. reflexivity. Qed.

Lemma wrapsAt_checked (n i : Z) :
  (1 <= n <= 100)%Z -> (0 <= i < n)%Z -> wrapsAt n i = true.
Proof.
  intros Hn Hi.
  assert (Hw : wraps n = true).
  { apply (allFrom_sound wraps 100 1 n wraps_up_to_100).
    replace (Z.of_nat 100) with 100%Z by reflexivity. lia. }
  apply (allFrom_sound (wrapsAt n) (Z.to_nat n) 0 i Hw).
  rewrite Z2Nat.id; lia.
Qed.

Section Ticker.

Variable E : Engine.

Lemma nextHeadline_wraps (items : list value) (i : nat) :
  (1 <= List.length items <= 100)%nat -> (i < List.length items)%nat ->
  nextHeadline E (JArray items) (of_Z (Z.of_nat i))
  = of_Z (Z.of_nat (Nat.modulo (i + 1) (List.length items))).
Proof.
  intros Hn Hi. unfold nextHeadline, lengthOf.
  assert (Hw : wrapsAt (Z.of_nat (List.length items)) (Z.of_nat i) = true)
    by (apply wrapsAt_checked; lia).
  unfold wrapsAt in Hw. apply andb_prop in Hw as [Hw _].
  apply FloatAxioms.Leibniz.eqb_spec in Hw. rewrite Hw. f_equal.
  rewrite Nat2Z.inj_mod, Nat2Z.inj_add. reflexivity.
Qed.

(** X13. For an array of 1 to 100 headlines and an index within it: the
    ticker moves the index [i] to [(i + 1) mod n], so after any number [k] of
    firings the index is [(i + k) mod n], again within the array, and after
    [n] firings it is back at [i]; the headline displayed for the index [i]
    is the element [i] of the array. *)
Theorem ticker_cycles_within_bounds :
  forall (items : list value) (i : nat),
    (1 <= List.length items <= 100)%nat -> (i < List.length items)%nat ->
    nextHeadline E (JArray items) (of_Z (Z.of_nat i))
    = of_Z (Z.of_nat (Nat.modulo (i + 1) (List.length items)))
    /\ (forall k : nat,
          ticker E k (JArray items) (of_Z (Z.of_nat i))
          = of_Z (Z.of_nat (Nat.modulo (i + k) (List.length items)))
          /\ (Nat.modulo (i + k) (List.length items) < List.length items)%nat)
    /\ ticker E (List.length items) (JArray items) (of_Z (Z.of_nat i))
       = of_Z (Z.of_nat i)
    /\ element items (of_Z (Z.of_nat i)) = nth i items JUndefined
    /\ In (element items (of_Z (Z.of_nat i))) items.
Proof.
  intros items i Hn Hi.
  assert (Hk : forall k j : nat, (j < List.length items)%nat ->
            ticker E k (JArray items) (of_Z (Z.of_nat j))
            = of_Z (Z.of_nat (Nat.modulo (j + k) (List.length items)))).
  { induction k as [|k IH]; intros j Hj; cbn [ticker].
    - now rewrite Nat.add_0_r, Nat.mod_small.
    - rewrite (nextHeadline_wraps items j Hn Hj).
      rewrite IH by (apply Nat.mod_upper_bound; lia).
      do 2 f_equal. rewrite Nat.Div0.add_mod_idemp_l. f_equal. lia. }
  assert (He : element items (of_Z (Z.of_nat i)) = nth i items JUndefined).
  { unfold element.
    assert (Hw : wrapsAt (Z.of_nat (List.length items)) (Z.of_nat i) = true)
      by (apply wrapsAt_checked; lia).
    unfold wrapsAt in Hw. apply andb_prop in Hw as [_ Hw].
    destruct (toIndex (of_Z (Z.of_nat i))) as [j|]; [|discriminate Hw].
    apply Nat.eqb_eq in Hw. now rewrite Hw, Nat2Z.id. }
  split; [now apply nextHeadline_wraps|]. split; [|split; [|split]].
  - intros k. split; [now apply Hk|]. apply Nat.mod_upper_bound. lia.
  - rewrite (Hk _ i Hi). do 2 f_equal.
    rewrite <- Nat.Div0.add_mod_idemp_r, Nat.Div0.mod_same, Nat.add_0_r.
    now apply Nat.mod_small.
  - exact He.
  - rewrite He. now apply nth_In.
Qed.

(** X14. On an empty array of headlines the ticker turns every index into
    NaN, and from NaN it never recovers: whatever the headlines are
    afterwards, the index stays NaN at every later firing, for which no
    element of an array is displayed. *)
Theorem ticker_is_poisoned_by_empty_headlines :
  (forall index : float, nextHeadline E (JArray []) index = nan)
  /\ (forall (headlines : value) (k : nat), ticker E k headlines nan = nan)
  /\ (forall items : list value, element items nan = JUndefined).
Proof.
  split; [|split].
  - intros index. unfold nextHeadline, lengthOf, Number_remainder.
    replace (Prim2SF (of_Z (Z.of_nat (List.length (@nil value)))))
      with (S754_zero false) by reflexivity.
    now destruct (Prim2SF (index + 1)).
  - intros headlines k. induction k as [|k IH]; [reflexivity|].
    cbn [ticker].
    replace (nextHeadline E headlines nan) with nan; [exact IH|].
    unfold nextHeadline, Number_remainder.
    replace (Prim2SF (nan + 1)) with S754_nan by reflexivity. reflexivity.
  - reflexivity.
Qed.

(** X15. For every total that is not NaN the pulse period is either the
    fixed [4s], when the total is not above zero, or a number of seconds that
    is at least 0.3, when it is. *)
Theorem pulse_period_has_a_floor :
  forall t : float,
    PrimFloat.is_nan t = false ->
    ((t <=? 0) = true /\ getPulseSpeed E t = "4s"%string)
    \/ ((0 <? t) = true
        /\ exists speed : float,
             getPulseSpeed E t = (numberToString E speed ++ "s")%string
             /\ (0.3 <=? speed) = true
             /\ PrimFloat.is_nan speed = false).
Proof.
  intros t Ht. unfold getPulseSpeed.
  destruct (t <=? 0) eqn:Hle; [now left|right].
  pose proof (positive_or_below t Ht Hle) as Hpos.
  split; [exact Hpos|]. eexists. split; [reflexivity|].
  assert (Hs : PrimFloat.is_nan (2.5 - t / 100000 * 2) = false).
  { apply is_nan_spec, sub_from_finite; [reflexivity|].
    apply is_nan_spec, nonneg_is_nan.
    eapply mul_nonneg; [reflexivity|].
    eapply div_nonneg; [reflexivity|]. now apply pos_nonneg. }
  split; [now apply Math_max_ge_left|].
  apply nonneg_is_nan.
  apply (Math_max_ge_left 0.3 _ eq_refl) in Hs.
  unfold Math_max in *. cbn [PrimFloat.is_nan] in *.
  destruct (PrimFloat.is_nan 0.3 || PrimFloat.is_nan (2.5 - t / 100000 * 2)) eqn:Hn.
  - rewrite leb_spec in Hs. discriminate Hs.
  - rewrite leb_zero_nonneg. rewrite leb_spec in Hs.
    destruct (Prim2SF (if 0.3 <? _ then _ else _)) as [s|s| |s m e];
      cbn in Hs |- *; try discriminate Hs; try reflexivity.
    + now destruct s.
    + now destruct s.
Qed.

(** X16. The displayed probability is never above 99, whatever the
    logarithm returns, and it is 0 for every total that is not above zero. *)
Theorem probability_is_capped :
  forall t : float,
    (99 <? displayProbability E t) = false
    /\ ((0 <? t) = false -> displayProbability E t = 0).
Proof.
  intros t. unfold displayProbability.
  destruct (0 <? t); [|now split].
  split; [apply Math_min_le_right|discriminate].
Qed.

End Ticker.

Section StartUp.

Variable H : Host.

(** X17. [getEnvVar] returns the empty string for a missing or falsy entry
    and without [import.meta.env], and a truthy value otherwise.  The store
    is configured only when a configuration text was found, parsed to a
    truthy value and the initialisation did not throw.  Without either text
    the application is in local mode and logs nothing; and when the text of
    the environment is present but does not parse, the application is in
    local mode whatever [__firebase_config] holds: the global is consulted
    only when the environment has no text. *)
Theorem store_configuration :
  (forall (boot : Boot) (key : string),
      (getEnvVar boot key = JString "" \/ truthy (getEnvVar boot key) = true)
      /\ (importMetaEnv boot = None -> getEnvVar boot key = JString "")
      /\ (forall env, importMetaEnv boot = Some env -> assoc key env = JUndefined ->
          getEnvVar boot key = JString ""))
  /\ (forall boot : Boot,
        getEnvVar boot "VITE_FIREBASE_CONFIG" = JString "" ->
        globalFirebaseConfig boot = None ->
        dbConfigured H boot = false /\ snd (firebaseConfig H boot) = [])
  /\ (forall (boot : Boot) (e : exn),
        truthy (getEnvVar boot "VITE_FIREBASE_CONFIG") = true ->
        JSON_parse H (getEnvVar boot "VITE_FIREBASE_CONFIG") = inl e ->
        dbConfigured H boot = false
        /\ snd (firebaseConfig H boot) = [ConsoleError "Firebase Config Parsing Error:"])
  /\ (forall boot : Boot,
        dbConfigured H boot = true ->
        initThrows boot = false
        /\ exists text config : value,
             JSON_parse H text = inr config /\ truthy config = true
             /\ (text = getEnvVar boot "VITE_FIREBASE_CONFIG"
                 \/ (truthy (getEnvVar boot "VITE_FIREBASE_CONFIG") = false
                     /\ globalFirebaseConfig boot = Some text))).
Proof.
  split; [|split; [|split]].
  - intros boot key. unfold getEnvVar. split; [|split].
    + destruct (importMetaEnv boot) as [env|]; [|now left].
      destruct (truthy (assoc key env)) eqn:Hv; [now right|now left].
    + now intros ->.
    + intros env -> Hmiss. now rewrite Hmiss.
  - intros boot Henv Hglobal. unfold dbConfigured, firebaseConfig.
    now rewrite Henv, Hglobal.
  - intros boot e Htruthy Hparse. unfold dbConfigured, firebaseConfig.
    now rewrite Htruthy, Hparse.
  - intros boot. unfold dbConfigured, firebaseConfig.
    destruct (truthy (getEnvVar boot "VITE_FIREBASE_CONFIG")) eqn:Htruthy.
    + destruct (JSON_parse H (getEnvVar boot "VITE_FIREBASE_CONFIG"))
        as [e|config] eqn:Hparse; cbn [fst]; [discriminate|].
      intros Hc. apply andb_prop in Hc as [Hc Hi].
      split; [now destruct (initThrows boot)|].
      exists (getEnvVar boot "VITE_FIREBASE_CONFIG"), config.
      split; [exact Hparse|]. split; [exact Hc|]. now left.
    + destruct (globalFirebaseConfig boot) as [text|]; [|discriminate].
      destruct (JSON_parse H text) as [e|config] eqn:Hparse; cbn [fst]; [discriminate|].
      intros Hc. apply andb_prop in Hc as [Hc Hi].
      split; [now destruct (initThrows boot)|].
      exists text, config.
      split; [exact Hparse|]. split; [exact Hc|]. now right.
Qed.

End StartUp.

End RestFacts.

(** ** The further properties on concrete inputs *)

Section RestExamples.
Import JS App Spec Demo Rest RestDemo.
Local Open Scope string_scope.

Lemma adapter_text_is_clean_witness :
  callGemini (hostFor fencedText None) true (replyWith fencedText) = inr (JString "{}")
  /\ exists s : string,
       JString "{}" = JString s /\ occurs fence s = false
       /\ startsWithWhiteSpace s = false /\ endsWithWhiteSpace s = false.
Proof.
  split; [reflexivity|].
  exact (proj1 (adapter_text_is_clean (hostFor fencedText None)
                  (replyWith fencedText) (JString "{}") eq_refl)).
Defined.

Lemma adapter_defaults_to_empty_object_witness :
  (isNullish (JObject []) = false /\ truthy (candidateText (JObject [])) = false)
  /\ callGemini emptyObjectHost true emptyReply = inr (JString "{}")
  /\ callGemini emptyObjectHost false emptyReply = inr (JString "{}").
Proof.
  split; [split; reflexivity|].
  split;
    apply (proj1 (adapter_defaults_to_empty_object emptyObjectHost) _
             {| ok := true; status := 200; body := "{}" |} (JObject []));
    reflexivity.
Defined.

Lemma empty_reply_decays_total_witness :
  db (tick 10000 false emptyReply) = false
  /\ totalActive synced = 1000%float
  /\ totalActive (next (checkAndRunUpdate emptyObjectHost
                          (tick 10000 false emptyReply) synced)) = 950%float
  /\ apiStatus (next (checkAndRunUpdate emptyObjectHost
                        (tick 10000 false emptyReply) synced)) = "success".
Proof.
  split; [reflexivity|]. split; [reflexivity|].
  destruct (proj1 (empty_reply_decays_total emptyObjectHost
                     (tick 10000 false emptyReply) synced
                     {| ok := true; status := 200; body := "{}" |} (JObject [])
                     eq_refl eq_refl eq_refl eq_refl eq_refl eq_refl) eq_refl)
    as (_ & Hdrop & Hstatus & _).
  split; [|exact Hstatus].
  rewrite (Hdrop eq_refl). reflexivity.
Defined.

Lemma write_failure_is_reported_witness :
  parsedPayload (hostFor (payloadText "1200") (Some payload1200)) rejectedWrite
    = Some payload1200
  /\ apiStatus (next (checkAndRunUpdate (hostFor (payloadText "1200") (Some payload1200))
                        rejectedWrite synced)) = "error"
  /\ errorDetails (next (checkAndRunUpdate (hostFor (payloadText "1200") (Some payload1200))
                           rejectedWrite synced)) = "permission-denied"
  /\ persisted (effects (checkAndRunUpdate (hostFor (payloadText "1200") (Some payload1200))
                           rejectedWrite synced)) = [1020%float].
Proof.
  split; [reflexivity|].
  destruct (write_failure_is_reported (hostFor (payloadText "1200") (Some payload1200))
              rejectedWrite synced "uid-1" payload1200 (Error "permission-denied")
              eq_refl eq_refl eq_refl eq_refl eq_refl eq_refl)
    as (_ & Hs & Hd & _ & _ & Hp & _).
  split; [exact Hs|]. split; [exact Hd|]. rewrite Hp. reflexivity.
Defined.

Lemma store_writes_are_attributed_witness :
  In (SetDoc {| total := 1020%float; snapTrend := JUndefined;
                snapHeadlines := JUndefined; timestamp := 61001;
                updatedBy := "uid-1" |})
     (effects (checkAndRunUpdate (hostFor (payloadText "1200") (Some payload1200))
                 (tick 61000 true (replyWith (payloadText "1200"))) synced))
  /\ user synced = Some "uid-1"
  /\ fetches (effects (checkAndRunUpdate (hostFor (payloadText "1200") (Some payload1200))
                         (tick 61000 true (replyWith (payloadText "1200"))) synced))
     = 1%nat
  /\ persisted (effects (checkAndRunUpdate (hostFor (payloadText "1200") (Some payload1200))
                           (tick 61000 false (replyWith (payloadText "1200"))) synced))
     = [].
Proof.
  assert (Hin : In (SetDoc {| total := 1020%float; snapTrend := JUndefined;
                              snapHeadlines := JUndefined; timestamp := 61001;
                              updatedBy := "uid-1" |})
                   (effects (checkAndRunUpdate
                               (hostFor (payloadText "1200") (Some payload1200))
                               (tick 61000 true (replyWith (payloadText "1200")))
                               synced)))
    by (vm_compute; right; left; reflexivity).
  split; [exact Hin|].
  destruct (proj1 (store_writes_are_attributed
                     (hostFor (payloadText "1200") (Some payload1200))) _ _ _ Hin)
    as (_ & Hu & _ & _ & _ & Hf).
  split; [exact Hu|]. split; [exact Hf|].
  apply (proj2 (store_writes_are_attributed
                  (hostFor (payloadText "1200") (Some payload1200)))).
  reflexivity.
Defined.

Lemma invalid_date_blocks_refresh_witness :
  lastUpdated (setLastUpdated (Some InvalidDate) synced) = Some InvalidDate
  /\ runTicks (hostFor "{}" (Some (JObject [])))
       [tick 61000 true (replyWith "{}"); tick 86400000 true (replyWith "{}")]
       (setLastUpdated (Some InvalidDate) synced)
     = (setLastUpdated (Some InvalidDate) synced, []).
Proof.
  split; [reflexivity|].
  apply (proj2 (invalid_date_blocks_refresh (hostFor "{}" (Some (JObject [])))
                  (setLastUpdated (Some InvalidDate) synced) eq_refl)).
  repeat constructor.
Defined.

Lemma staleness_boundary_witness :
  ((70000 <= 80000)%Z /\ needsUpdate 70000 (Some (DateMs 0)) = true)
  /\ needsUpdate 80000 (Some (DateMs 0)) = true
  /\ ((5 <= 9)%Z /\ needsUpdate 5 (Some (DateMs 9)) = false).
Proof.
  split; [split; [lia|reflexivity]|]. split.
  - apply (proj1 (proj2 staleness_boundary) 70000%Z 80000%Z (Some (DateMs 0)));
      [lia|reflexivity].
  - split; [lia|]. apply (proj2 (proj2 staleness_boundary) 5%Z 9%Z). lia.
Defined.

Lemma missing_document_triggers_refresh_witness :
  (stalenessThreshold < now (tick 61000 true (replyWith "{}")))%Z
  /\ lastUpdated (onSnapshot (hostFor "{}" (Some (JObject []))) None synced)
     = Some (DateMs 0)
  /\ fetches (effects (checkAndRunUpdate (hostFor "{}" (Some (JObject [])))
                         (tick 61000 true (replyWith "{}"))
                         (onSnapshot (hostFor "{}" (Some (JObject []))) None synced)))
     = 1%nat.
Proof.
  assert (Hnow : (stalenessThreshold < now (tick 61000 true (replyWith "{}")))%Z)
    by (vm_compute; reflexivity).
  split; [exact Hnow|]. split; [reflexivity|].
  exact (proj2 (missing_document_triggers_refresh (hostFor "{}" (Some (JObject [])))
                  (tick 61000 true (replyWith "{}")) synced "uid-1"
                  eq_refl eq_refl Hnow)).
Defined.

Lemma shared_mode_cycle_keeps_view_witness :
  db (tick 61000 true (replyWith (payloadText "1200"))) = true
  /\ totalActive (next (checkAndRunUpdate
                          (hostFor (payloadText "1200") (Some payload1200))
                          (tick 61000 true (replyWith (payloadText "1200"))) synced))
     = 1000%float
  /\ apiStatus (next (checkAndRunUpdate
                        (hostFor (payloadText "1200") (Some payload1200))
                        (tick 61000 true (replyWith (payloadText "1200"))) synced))
     = "loading".
Proof.
  split; [reflexivity|]. split; [|reflexivity].
  exact (proj1 (shared_mode_cycle_keeps_view
                  (hostFor (payloadText "1200") (Some payload1200))
                  (tick 61000 true (replyWith (payloadText "1200"))) synced eq_refl)).
Defined.

Lemma snapshot_keeps_view_wellformed_witness :
  isArray (headlines synced) = true
  /\ isArray (headlines (onSnapshot (hostFor "{}" None) (Some storedDocument) synced)) = true
  /\ trend (onSnapshot (hostFor "{}" None) (Some storedDocument) synced) = JString "stable"
  /\ apiStatus (onSnapshot (hostFor "{}" None) (Some storedDocument) synced) = "success"
  /\ errorDetails (onSnapshot (hostFor "{}" None) (Some storedDocument)
                     (setErrorDetails "HTTP 503: overloaded" synced))
     = "HTTP 503: overloaded".
Proof.
  split; [reflexivity|].
  destruct (snapshot_keeps_view_wellformed (hostFor "{}" None)
              (Some storedDocument) synced) as (Harr & _ & _ & _ & _ & Hdoc).
  split; [exact (Harr eq_refl)|]. split; [reflexivity|].
  split; [exact (proj1 (Hdoc storedDocument eq_refl))|].
  exact (proj1 (proj2 (proj2 (snapshot_keeps_view_wellformed (hostFor "{}" None)
                                (Some storedDocument)
                                (setErrorDetails "HTTP 503: overloaded" synced))))).
Defined.

Lemma animation_rests_on_target_witness :
  (PrimFloat.is_nan 1000 = false /\ PrimFloat.is_infinity 1000 = false)
  /\ animate (JNumber 1000) (JNumber 1000) = 1000%float
  /\ keepRunning 1000 1000 = false
  /\ ((Math_abs (1000 - 999.5) <? 1)%float = true
      /\ animate (JNumber 1000) (JNumber 999.5) = 1000%float).
Proof.
  destruct (animation_rests_on_target 1000 eq_refl eq_refl) as (Hfix & Hrest & _ & Hnear).
  split; [split; reflexivity|]. split; [exact Hfix|]. split; [exact Hrest|].
  split; [reflexivity|]. exact (proj1 (Hnear 999.5%float eq_refl eq_refl)).
Defined.

Lemma ticker_cycles_within_bounds_witness :
  (2 < List.length [JString "A"; JString "B"; JString "C"])%nat
  /\ nextHeadline engine (JArray [JString "A"; JString "B"; JString "C"]) 2 = 0%float
  /\ ticker engine 3 (JArray [JString "A"; JString "B"; JString "C"]) 2 = 2%float
  /\ element [JString "A"; JString "B"; JString "C"] 2 = JString "C".
Proof.
  assert (Hn : (1 <= List.length [JString "A"; JString "B"; JString "C"] <= 100)%nat)
    by (cbn; lia).
  assert (Hi : (2 < List.length [JString "A"; JString "B"; JString "C"])%nat)
    by (cbn; lia).
  destruct (ticker_cycles_within_bounds engine
              [JString "A"; JString "B"; JString "C"] 2 Hn Hi)
    as (Hnext & _ & Hback & Helem & _).
  split; [exact Hi|]. split; [exact Hnext|]. split; [exact Hback|exact Helem].
Defined.

Lemma pulse_period_has_a_floor_witness :
  PrimFloat.is_nan 50000 = false
  /\ getPulseSpeed engine 50000 = "1.5s"
  /\ getPulseSpeed engine 200000 = "0.3s"
  /\ getPulseSpeed engine 0 = "4s"
  /\ (((50000 <=? 0)%float = true /\ getPulseSpeed engine 50000 = "4s")
      \/ ((0 <? 50000)%float = true
          /\ exists speed : float,
               getPulseSpeed engine 50000 = numberToString engine speed ++ "s"
               /\ (0.3 <=? speed)%float = true
               /\ PrimFloat.is_nan speed = false)).
Proof.
  split; [reflexivity|]. split; [reflexivity|]. split; [reflexivity|].
  split; [reflexivity|]. exact (pulse_period_has_a_floor engine 50000 eq_refl).
Defined.

Lemma probability_is_capped_witness :
  (0 <? 0)%float = false
  /\ displayProbability engine 0 = 0%float
  /\ displayProbability engine 1000 = 28%float
  /\ (99 <? displayProbability engine 1000)%float = false.
Proof.
  split; [reflexivity|].
  split; [exact (proj2 (probability_is_capped engine 0) eq_refl)|].
  split; [reflexivity|]. exact (proj1 (probability_is_capped engine 1000)).
Defined.

Lemma store_configuration_witness :
  (getEnvVar bareBoot "VITE_FIREBASE_CONFIG" = JString ""
   /\ dbConfigured (hostFor "{}" (Some (JObject []))) bareBoot = false)
  /\ (truthy (getEnvVar brokenEnvBoot "VITE_FIREBASE_CONFIG") = true
      /\ globalFirebaseConfig brokenEnvBoot = Some (JString "{}")
      /\ dbConfigured (hostFor "{}" (Some (JObject []))) brokenEnvBoot = false)
  /\ (dbConfigured (tableHost [("cfg", JObject [("projectId", JString "p")])]) globalBoot
      = true
      /\ initThrows globalBoot = false).
Proof.
  split; [split; [reflexivity|]|split; [split; [reflexivity|split; [reflexivity|]]|]].
  - exact (proj1 (proj1 (proj2 (store_configuration (hostFor "{}" (Some (JObject []))))) 
                    bareBoot eq_refl eq_refl)).
  - exact (proj1 (proj1 (proj2 (proj2 (store_configuration
                                        (hostFor "{}" (Some (JObject []))))))
                    brokenEnvBoot
                    {| name := "SyntaxError"; message := "Unexpected token" |}
                    eq_refl eq_refl)).
  - split; [reflexivity|].
    exact (proj1 (proj2 (proj2 (proj2 (store_configuration
                     (tableHost [("cfg", JObject [("projectId", JString "p")])]))))
                   globalBoot eq_refl)).
Defined.

End RestExamples.

(** ** Where a negative total can pass *)

Section TotalsWithHistory.
Import JS App Spec FloatFacts.
Local Open Scope float_scope.

Lemma not_ltb_nonneg (a b : float) :
  (0 <=? b) = true -> PrimFloat.is_nan a = false -> (a <? b) = false ->
  (0 <=? a) = true.
Proof.
  rewrite !leb_zero_nonneg, is_nan_spec, ltb_spec. unfold SFltb. intros Hb Ha.
  destruct (nonneg_cases _ Hb) as [[s' ->]|[->|(m' & e' & ->)]];
    destruct (Prim2SF a) as [s|s| |s m e]; try destruct s;
    cbn; try reflexivity; try discriminate; try easy.
Qed.

(** With a positive previous total the stabiliser returns a total at or
    above zero for every incoming total that is not NaN, negative totals and
    the infinities included. *)
Lemma stabilize_nonneg_with_history (p x : float) :
  (0 <? p) = true -> PrimFloat.is_nan x = false -> (0 <=? stabilize p x) = true.
Proof.
  intros Hp Hx.
  destruct (x <? p) eqn:Hlt.
  - assert (Hr : (0 <=? Math_round (p * 0.95)) = true).
    { apply Math_round_nonneg. eapply mul_nonneg; [reflexivity|].
      now apply pos_nonneg. }
    unfold stabilize. rewrite Hp, Hlt. unfold Math_max.
    rewrite Hx, (nonneg_is_nan _ Hr). cbn [orb].
    destruct (x <? Math_round (p * 0.95)) eqn:Hxr; [exact Hr|].
    pose proof (not_ltb_nonneg x _ Hr Hx Hxr) as Hx0.
    destruct (Math_round (p * 0.95) <? x); [exact Hx0|].
    now destruct (PrimFloat.is_zero x && PrimFloat.get_sign x).
  - apply stabilize_nonneg.
    exact (not_ltb_nonneg x p (pos_nonneg _ Hp) Hx Hlt).
Qed.

(** Hence the only totals below zero a refresh cycle accepts arrive when
    the previous total is not above zero: from a positive previous total,
    every payload whose [total] is not NaN leaves the accepted total, and the
    total sent to the store, at or above zero. *)
Lemma accepted_total_nonneg_with_history (H : Host) (env : Env) (st : State) :
  (0 <? totalActive st) = true ->
  (forall (data : value) (x : float),
      parsedPayload H env = Some data -> get data "total" = JNumber x ->
      PrimFloat.is_nan x = false) ->
  (0 <=? totalActive (next (checkAndRunUpdate H env st))) = true
  /\ Forall (fun t : float => (0 <=? t) = true)
            (persisted (effects (checkAndRunUpdate H env st))).
Proof.
  intros Hpos Hpay. pose proof (pos_nonneg _ Hpos) as Hst.
  destruct (attemptsRefresh env st) eqn:Ha;
    [|rewrite (run_skipped H env st Ha); split; [exact Hst|constructor]].
  rewrite (run_attempted H env st Ha).
  unfold parsedPayload in Hpay. unfold tryRefresh.
  cbn [user totalActive setApiStatus].
  destruct (callGemini H true (reply env)) as [e|jsonStr];
    [split; [exact Hst|constructor]|].
  destruct (JSON_parse H jsonStr) as [e|data];
    [split; [exact Hst|constructor]|].
  specialize (Hpay data).
  destruct (read H data "total") as [e|dataTotal] eqn:Hread;
    [split; [exact Hst|constructor]|].
  apply read_get in Hread. subst dataTotal.
  assert (Hnew : (0 <=? stabilize (totalActive st)
                          (incomingTotalOf (get data "total"))) = true).
  { apply stabilize_nonneg_with_history; [exact Hpos|].
    destruct (get data "total") as [| |b|x|t|items|fields] eqn:Ht;
      try reflexivity.
    exact (Hpay x eq_refl eq_refl). }
  destruct (negb (db env)).
  - cbn [next effects persisted]. rewrite acceptLocally_total.
    split; [exact Hnew|constructor].
  - destruct (user st) as [uid|]; [|split; [exact Hst|constructor]].
    destruct (writeFailure env); cbn [next effects persisted app total];
      (split; [exact Hst|now repeat constructor]).
Qed.

End TotalsWithHistory.
